(** * PushToGitHubDialog: the repository-publish workflow

    A shallow embedding of
    [src/app/components/@settings/tabs/connections/components/PushToGitHubDialog.tsx]
    ([fetchRecentRepos], the mount effect and [handleSubmit]) together with
    the properties of the publish pipeline that the design document states.

    JavaScript strings are sequences of UTF-16 code units; control flow
    follows ECMAScript completion records (normal, [return], [throw]) so that
    [try]/[catch]/[finally] and early [return] read as in the source. *)

From Stdlib Require Import List NArith ZArith Bool String Ascii Lia.
Import ListNotations.

(** ** JavaScript strings *)

Module JS.

(** A string value: its UTF-16 code units. *)
Definition jsstring := list N.

(** An ASCII literal of the source, as code units. *)
Definition lit (s : string) : jsstring :=
  map N_of_ascii (list_ascii_of_string s).

Fixpoint str_eqb (a b : jsstring) : bool :=
  match a, b with
  | [], [] => true
  | x :: a', y :: b' => N.eqb x y && str_eqb a' b'
  | _, _ => false
  end.

(** ToBoolean on a string: the empty string is the only falsy one. *)
Definition truthy (s : jsstring) : bool :=
  match s with [] => false | _ :: _ => true end.

(** WhiteSpace and LineTerminator code points, as [String.prototype.trim]
    strips them. *)
Definition isWhiteSpace (c : N) : bool :=
  (N.eqb c 9 || N.eqb c 10 || N.eqb c 11 || N.eqb c 12 || N.eqb c 13
   || N.eqb c 32 || N.eqb c 160 || N.eqb c 5760
   || (N.leb 8192 c && N.leb c 8202)
   || N.eqb c 8232 || N.eqb c 8233 || N.eqb c 8239 || N.eqb c 8287
   || N.eqb c 12288 || N.eqb c 65279)%bool.

Fixpoint trimStart (s : jsstring) : jsstring :=
  match s with
  | [] => []
  | c :: r => if isWhiteSpace c then trimStart r else s
  end.

Definition trimEnd (s : jsstring) : jsstring := rev (trimStart (rev s)).

Definition trim (s : jsstring) : jsstring := trimEnd (trimStart s).

(** [s.substring(0, n)] *)
Definition substring0 (n : nat) (s : jsstring) : jsstring := firstn n s.

(** [hay.includes(needle)] *)
Fixpoint startsWith (needle hay : jsstring) : bool :=
  match needle, hay with
  | [], _ => true
  | x :: n', y :: h' => N.eqb x y && startsWith n' h'
  | _ :: _, [] => false
  end.

Fixpoint includes (needle hay : jsstring) : bool :=
  startsWith needle hay ||
  match hay with
  | [] => false
  | _ :: h' => includes needle h'
  end.

(** *** TextEncoder

    [new TextEncoder().encode(s)]: the string is first converted to a
    sequence of Unicode scalar values (a well-formed surrogate pair is one
    supplementary code point, a lone surrogate becomes U+FFFD), then each
    scalar value is written in UTF-8. *)

Definition isHighSurrogate (c : N) : bool := N.leb 55296 c && N.leb c 56319.
Definition isLowSurrogate (c : N) : bool := N.leb 56320 c && N.leb c 57343.

Definition utf8_of_scalar (cp : N) : list N :=
  if N.ltb cp 128 then [cp]
  else if N.ltb cp 2048 then [192 + cp / 64; 128 + cp mod 64]%N
  else if N.ltb cp 65536 then
    [224 + cp / 4096; 128 + (cp / 64) mod 64; 128 + cp mod 64]%N
  else
    [240 + cp / 262144; 128 + (cp / 4096) mod 64;
     128 + (cp / 64) mod 64; 128 + cp mod 64]%N.

Definition replacement : N := 65533.

(** The scalar values of a string (USVString conversion). *)
Fixpoint scalars (s : jsstring) : list N :=
  match s with
  | [] => []
  | c :: r =>
      if isHighSurrogate c then
        match r with
        | d :: r' =>
            if isLowSurrogate d
            then (65536 + (c - 55296) * 1024 + (d - 56320))%N :: scalars r'
            else replacement :: scalars r
        | [] => [replacement]
        end
      else if isLowSurrogate c then replacement :: scalars r
      else c :: scalars r
  end.

Definition TextEncoder_encode (s : jsstring) : list N :=
  flat_map utf8_of_scalar (scalars s).

End JS.

Import JS.

(** ** Data of the component *)

(** A JavaScript value as far as the code inspects one (the [status]
    property of a caught error). HTTP statuses are integral numbers. *)
Inductive JSVal :=
| VUndefined
| VNull
| VBool (b : bool)
| VNum (n : Z)
| VStr (s : jsstring).

(** [a === b] *)
Definition strict_eq (a b : JSVal) : bool :=
  match a, b with
  | VUndefined, VUndefined => true
  | VNull, VNull => true
  | VBool x, VBool y => Bool.eqb x y
  | VNum x, VNum y => Z.eqb x y
  | VStr x, VStr y => str_eqb x y
  | _, _ => false
  end.

(** A thrown value: whether it is an [Error] instance, its [status] property
    when it has one (['status' in error]), and its message. Octokit's
    [RequestError] is an [Error] whose [status] is the HTTP status. *)
Record Thrown := {
  instanceofError : bool;
  status : option JSVal;
  message : jsstring
}.

Definition RequestError (code : Z) (msg : jsstring) : Thrown :=
  {| instanceofError := true; status := Some (VNum code); message := msg |}.

(** [GitHubUserResponse], the fields the dialog reads. *)
Record GitHubUserResponse := {
  login : jsstring;
  name : option jsstring;
  avatar_url : jsstring
}.

(** The value stored under [github_connection]; either property may be
    missing. *)
Record Connection := {
  user : option GitHubUserResponse;
  token : option jsstring
}.

(** An entry of the workbench [FileMap]. *)
Inductive Dirent :=
| File (content : jsstring) (isBinary : bool)
| Folder.

(** [Object.entries(files)]: the entries in enumeration order; an entry may
    hold [undefined]. *)
Definition FileMap := list (jsstring * option Dirent).

Record GitHubRepo := {
  repo_name : jsstring;
  full_name : jsstring;
  html_url : jsstring;
  repo_private : bool
}.

(** Parsed JSON bodies. *)
Inductive Json :=
| JEmptyObject
| JRepos (repos : list GitHubRepo)
| JOther (raw : jsstring).

(** An entry of [pushedFiles]. *)
Record PushedFile := { path : jsstring; size : nat }.

(** ** Effects *)

(** A value inside a logged object. *)
Inductive LogVal :=
| LStr (s : jsstring)
| LNum (n : Z)
| LJson (j : Json)
| LErr (e : Thrown).

(** What follows the message in a logging call: nothing, an object literal,
    or a single value. *)
Inductive Payload :=
| PNone
| PObject (fields : list (jsstring * LogVal))
| PValue (v : LogVal).

Inductive Event :=
| ToastError (msg : jsstring)
| LogStoreError (msg : jsstring) (details : Payload)
| ConsoleLog (label : jsstring) (details : Payload)
| ConsoleError (label : jsstring) (details : Payload)
| Fetch (url accept authorization : jsstring)
| ReposGet (auth owner repo : jsstring)
| WindowConfirm (msg : jsstring)
| OnPush (repoName username token : jsstring) (isPrivate : bool)
| LocalStorageRemoveItem (key : jsstring).

(** The [useState] cells of the component. *)
Record Hooks := {
  repoName : jsstring;
  isPrivate : bool;
  isLoading : bool;
  userState : option GitHubUserResponse;
  recentRepos : Json;
  isFetchingRepos : bool;
  showSuccessDialog : bool;
  createdRepoUrl : jsstring;
  pushedFiles : list PushedFile
}.

(** What a run can touch: the [github_connection] item of local storage,
    the workbench files, the hooks, and the effects performed so far (oldest
    first). *)
Record State := {
  github_connection : option Connection;
  files : FileMap;
  hooks : Hooks;
  trace : list Event
}.

(** Responses of the outside world. *)
Inductive JsonResult :=
| JsonRejects (e : Thrown)
| JsonValue (j : Json).

Record Response := {
  resp_status : Z;
  statusText : jsstring;
  json : JsonResult
}.

(** [response.ok]: the status is in the range 200-299. *)
Definition ok (r : Response) : bool :=
  (Z.leb 200 (resp_status r) && Z.leb (resp_status r) 299)%bool.

Inductive Settled (A : Type) :=
| Resolves (a : A)
| Rejects (e : Thrown).
Arguments Resolves {A} a.
Arguments Rejects {A} e.

(** The collaborators of the dialog: [fetch], [octokit.repos.get],
    [window.confirm] and the [onPush] property. *)
Record World := {
  fetch : jsstring -> jsstring -> jsstring -> Settled Response;
  repos_get : jsstring -> jsstring -> jsstring -> Settled unit;
  window_confirm : jsstring -> bool;
  onPush : jsstring -> jsstring -> jsstring -> bool -> Settled jsstring
}.

(** ** Completion records *)

Inductive Completion (A : Type) :=
| Normal (a : A)
| Return
| Throw (e : Thrown).
Arguments Normal {A} a.
Arguments Return {A}.
Arguments Throw {A} e.

Definition M (A : Type) := State -> Completion A * State.

Definition ret {A} (a : A) : M A := fun s => (Normal a, s).

Definition bind {A B} (m : M A) (k : A -> M B) : M B :=
  fun s =>
    match m s with
    | (Normal a, s') => k a s'
    | (Return, s') => (Return, s')
    | (Throw e, s') => (Throw e, s')
    end.

Declare Scope js_scope.
Delimit Scope js_scope with js.
Notation "x <- m ;; k" := (bind m (fun x => k))
  (at level 61, m at next level, right associativity) : js_scope.
Notation "m ;; k" := (bind m (fun _ => k))
  (at level 61, right associativity) : js_scope.
Open Scope js_scope.

Definition return_ {A} : M A := fun s => (Return, s).
Definition throw {A} (e : Thrown) : M A := fun s => (Throw e, s).

(** [await p] *)
Definition await {A} (p : Settled A) : M A :=
  match p with
  | Resolves a => ret a
  | Rejects e => throw e
  end.

Definition emit (e : Event) : M unit :=
  fun s => (Normal tt,
            {| github_connection := github_connection s; files := files s;
               hooks := hooks s; trace := trace s ++ [e] |}).

Definition getState : M State := fun s => (Normal s, s).

Definition setHooks (f : Hooks -> Hooks) : M unit :=
  fun s => (Normal tt,
            {| github_connection := github_connection s; files := files s;
               hooks := f (hooks s); trace := trace s |}).

(** [try { body } catch (error) { handler }] *)
Definition try_catch {A} (body : M A) (handler : Thrown -> M A) : M A :=
  fun s =>
    match body s with
    | (Throw e, s') => handler e s'
    | r => r
    end.

(** [try { body } finally { fin }], for a finaliser that completes
    normally: the completion of [body] stands. *)
Definition try_finally {A} (body : M A) (fin : M unit) : M A :=
  fun s =>
    match body s with
    | (c, s') =>
        match fin s' with
        | (Normal _, s'') => (c, s'')
        | (Return, s'') => (Return, s'')
        | (Throw e, s'') => (Throw e, s'')
        end
    end.

(** The body of a function returning nothing: [return] ends the call. *)
Definition call (body : M unit) : M unit :=
  fun s =>
    match body s with
    | (Return, s') => (Normal tt, s')
    | r => r
    end.

Definition when (b : bool) (m : M unit) : M unit :=
  if b then m else ret tt.

(** ** The component *)

Definition setIsLoading (b : bool) : M unit :=
  setHooks (fun h =>
    {| repoName := repoName h; isPrivate := isPrivate h; isLoading := b;
       userState := userState h; recentRepos := recentRepos h;
       isFetchingRepos := isFetchingRepos h;
       showSuccessDialog := showSuccessDialog h;
       createdRepoUrl := createdRepoUrl h; pushedFiles := pushedFiles h |}).

Definition setUser (u : option GitHubUserResponse) : M unit :=
  setHooks (fun h =>
    {| repoName := repoName h; isPrivate := isPrivate h;
       isLoading := isLoading h;
       userState := u; recentRepos := recentRepos h;
       isFetchingRepos := isFetchingRepos h;
       showSuccessDialog := showSuccessDialog h;
       createdRepoUrl := createdRepoUrl h; pushedFiles := pushedFiles h |}).

Definition setRecentRepos (r : Json) : M unit :=
  setHooks (fun h =>
    {| repoName := repoName h; isPrivate := isPrivate h;
       isLoading := isLoading h;
       userState := userState h; recentRepos := r;
       isFetchingRepos := isFetchingRepos h;
       showSuccessDialog := showSuccessDialog h;
       createdRepoUrl := createdRepoUrl h; pushedFiles := pushedFiles h |}).

Definition setIsFetchingRepos (b : bool) : M unit :=
  setHooks (fun h =>
    {| repoName := repoName h; isPrivate := isPrivate h;
       isLoading := isLoading h;
       userState := userState h; recentRepos := recentRepos h;
       isFetchingRepos := b;
       showSuccessDialog := showSuccessDialog h;
       createdRepoUrl := createdRepoUrl h; pushedFiles := pushedFiles h |}).

Definition setShowSuccessDialog (b : bool) : M unit :=
  setHooks (fun h =>
    {| repoName := repoName h; isPrivate := isPrivate h;
       isLoading := isLoading h;
       userState := userState h; recentRepos := recentRepos h;
       isFetchingRepos := isFetchingRepos h;
       showSuccessDialog := b;
       createdRepoUrl := createdRepoUrl h; pushedFiles := pushedFiles h |}).

Definition setCreatedRepoUrl (u : jsstring) : M unit :=
  setHooks (fun h =>
    {| repoName := repoName h; isPrivate := isPrivate h;
       isLoading := isLoading h;
       userState := userState h; recentRepos := recentRepos h;
       isFetchingRepos := isFetchingRepos h;
       showSuccessDialog := showSuccessDialog h;
       createdRepoUrl := u; pushedFiles := pushedFiles h |}).

Definition setPushedFiles (l : list PushedFile) : M unit :=
  setHooks (fun h =>
    {| repoName := repoName h; isPrivate := isPrivate h;
       isLoading := isLoading h;
       userState := userState h; recentRepos := recentRepos h;
       isFetchingRepos := isFetchingRepos h;
       showSuccessDialog := showSuccessDialog h;
       createdRepoUrl := createdRepoUrl h; pushedFiles := l |}).

(** [getLocalStorage('github_connection')] *)
Definition getLocalStorage : M (option Connection) :=
  fun s => (Normal (github_connection s), s).

(** [localStorage.removeItem('github_connection')] *)
Definition removeItem : M unit :=
  fun s => (Normal tt,
            {| github_connection := None; files := files s;
               hooks := hooks s;
               trace := trace s ++ [LocalStorageRemoveItem (lit "github_connection")] |}).

Definition repos_url : jsstring :=
  lit "https://api.github.com/user/repos?sort=updated&per_page=5".

Definition accept : jsstring := lit "application/vnd.github.v3+json".

(** [x || ''] on a string *)
Definition or_empty (x : jsstring) : jsstring :=
  if truthy x then x else [].

(** [connection?.token] and [connection?.user] *)
Definition token_of (c : option Connection) : option jsstring :=
  match c with Some c => token c | None => None end.

Definition user_of (c : option Connection) : option GitHubUserResponse :=
  match c with Some c => user c | None => None end.

Definition opt_truthy (o : option jsstring) : bool :=
  match o with Some t => truthy t | None => false end.

Definition defined {A} (o : option A) : bool :=
  match o with Some _ => true | None => false end.

(** The messages shown to the user. *)
Definition connect_first : jsstring :=
  lit "Please connect your GitHub account in Settings > Connections first".

Definition name_required : jsstring := lit "Repository name is required".

Definition token_expired : jsstring :=
  lit "GitHub token expired. Please reconnect your account.".

Definition push_failed : jsstring :=
  lit "Failed to push to GitHub. Please check your repository name and try again.".

(** Lines 62-132. *)
Definition fetchRecentRepos (w : World) (token : jsstring) : M unit :=
  call (
    if negb (truthy token) || str_eqb (trim token) [] then
      emit (LogStoreError (lit "No GitHub token available") PNone) ;;
      emit (ToastError (lit "GitHub authentication required")) ;;
      return_
    else
      let cleanToken := trim token in
      try_finally
        (try_catch
           (setIsFetchingRepos true ;;
            emit (ConsoleLog (lit "Using GitHub token format:")
                    (PObject
                       [(lit "tokenPrefix",
                         LStr (if truthy cleanToken
                               then substring0 4 cleanToken ++ lit "..."
                               else lit "none"));
                        (lit "authHeader",
                         LStr (substring0 10 (lit "token " ++ cleanToken)
                               ++ lit "..."))])) ;;
            emit (Fetch repos_url accept (lit "token " ++ cleanToken)) ;;
            response <- await (fetch w repos_url accept
                                 (lit "token " ++ cleanToken)) ;;
            when (negb (ok response))
              (let errorData :=
                 match json response with
                 | JsonValue j => j
                 | JsonRejects _ => JEmptyObject
                 end in
               emit (ConsoleError (lit "GitHub API Error:")
                       (PObject
                          [(lit "status", LNum (resp_status response));
                           (lit "statusText", LStr (statusText response));
                           (lit "errorData", LJson errorData);
                           (lit "requestUrl", LStr repos_url);
                           (lit "tokenPrefix",
                            LStr (if truthy cleanToken
                                  then substring0 4 cleanToken
                                  else lit "none"))])) ;;
               (if Z.eqb (resp_status response) 401 then
                  emit (ToastError token_expired) ;;
                  connection <- getLocalStorage ;;
                  when (defined connection) (removeItem ;; setUser None)
                else
                  emit (LogStoreError
                          (lit "Failed to fetch GitHub repositories")
                          (PObject
                             [(lit "status", LNum (resp_status response));
                              (lit "statusText", LStr (statusText response));
                              (lit "error", LJson errorData)])) ;;
                  emit (ToastError
                          (lit "Failed to fetch repositories: "
                           ++ statusText response))) ;;
               return_) ;;
            repos <- match json response with
                     | JsonValue j => ret j
                     | JsonRejects e => throw e
                     end ;;
            setRecentRepos repos)
           (fun error =>
              emit (LogStoreError (lit "Failed to fetch GitHub repositories")
                      (PObject [(lit "error", LErr error)])) ;;
              emit (ToastError (lit "Failed to fetch recent repositories"))))
        (setIsFetchingRepos false)).

(** The mount effect, lines 47-60, for an open dialog. *)
Definition onOpen (w : World) : M unit :=
  call (
    connection <- getLocalStorage ;;
    match user_of connection, token_of connection with
    | Some u, Some t =>
        when (truthy t)
          (setUser (Some u) ;;
           when (truthy (trim t)) (fetchRecentRepos w t))
    | _, _ => ret tt
    end).

(** [error instanceof Error && 'status' in error && error.status !== 404],
    line 177. *)
Definition rethrown (error : Thrown) : bool :=
  instanceofError error &&
  match status error with
  | Some v => negb (strict_eq v (VNum 404))
  | None => false
  end.

(** The text of the overwrite question, lines 167-169. *)
Definition confirm_message (repoName : jsstring) : jsstring :=
  lit "Repository " ++ [34%N] ++ repoName ++ [34%N]
  ++ lit " already exists. Do you want to update it? This will add or modify files in the repository.".

(** The existence check, lines 160-180: look the repository up, ask before
    updating an existing one, and let a failed lookup through unless it is
    an [Error] with a status other than 404. *)
Definition checkRepository (w : World) (auth owner repoName : jsstring)
  : M unit :=
  try_catch
    (emit (ReposGet auth owner repoName) ;;
     await (repos_get w auth owner repoName) ;;
     let msg := confirm_message repoName in
     emit (WindowConfirm msg) ;;
     let confirmOverwrite := window_confirm w msg in
     when (negb confirmOverwrite) (setIsLoading false ;; return_))
    (fun error => when (rethrown error) (throw error)).

Section Workbench.

(** [extractRelativePath] of [~/utils/diff], which strips the work
    directory from a path; its text is not part of this component. *)
Variable extractRelativePath : jsstring -> jsstring.

(** The predicate of [filter], line 188:
    [dirent?.type === 'file' && !dirent.isBinary]. *)
Definition isPushedEntry (e : jsstring * option Dirent) : bool :=
  match snd e with
  | Some (File _ isBinary) => negb isBinary
  | Some Folder => false
  | None => false
  end.

(** [(dirent as File).content] *)
Definition contentOf (d : option Dirent) : jsstring :=
  match d with
  | Some (File c _) => c
  | _ => []
  end.

(** The function of [map], lines 189-192. *)
Definition toPushedFile (e : jsstring * option Dirent) : PushedFile :=
  {| path := extractRelativePath (fst e);
     size := List.length (TextEncoder_encode (or_empty (contentOf (snd e)))) |}.

(** [filesList], lines 187-192. *)
Definition filesList (files : FileMap) : list PushedFile :=
  map toPushedFile (filter isPushedEntry files).

(** Lines 134-202. The first guard, [!connection?.token ||
    !connection?.user], fails when the token is missing or empty or the
    user is missing. *)
Definition handleSubmit (w : World) : M unit :=
  call (
    connection <- getLocalStorage ;;
    s <- getState ;;
    let repoName := repoName (hooks s) in
    let isPrivate := isPrivate (hooks s) in
    match token_of connection, user_of connection with
    | Some token, Some user =>
        if negb (truthy token) then
          emit (ToastError connect_first) ;; return_
        else if negb (truthy (trim repoName)) then
          emit (ToastError name_required) ;; return_
        else
          setIsLoading true ;;
          try_finally
            (try_catch
               (checkRepository w (trim token) (login user) repoName ;;
                emit (OnPush repoName (login user) token isPrivate) ;;
                repoUrl <- await (onPush w repoName (login user) token
                                    isPrivate) ;;
                setCreatedRepoUrl repoUrl ;;
                s <- getState ;;
                setPushedFiles (filesList (files s)) ;;
                setShowSuccessDialog true)
               (fun error =>
                  emit (ConsoleError (lit "Error pushing to GitHub:")
                          (PValue (LErr error))) ;;
                  emit (ToastError push_failed)))
            (setIsLoading false)
    | _, _ => emit (ToastError connect_first) ;; return_
    end).

End Workbench.

(** ** Reading the design's outcomes off a run *)

Inductive BlockedReason := NoCredential | EmptyRepositoryName.

(** The terminal outcomes of the design document. The component returns
    nothing; an outcome is what its effects show. *)
Inductive PublishOutcome :=
| Blocked (reason : BlockedReason)
| Cancelled
| Succeeded (repositoryUrl : jsstring) (manifest : list PushedFile)
| Failed (userMessage : jsstring).

Definition isToast (msg : jsstring) (e : Event) : bool :=
  match e with
  | ToastError m => str_eqb m msg
  | _ => false
  end.

Definition isOnPush (e : Event) : bool :=
  match e with OnPush _ _ _ _ => true | _ => false end.

Definition isReposGet (e : Event) : bool :=
  match e with ReposGet _ _ _ => true | _ => false end.

Definition isFetch (e : Event) : bool :=
  match e with Fetch _ _ _ => true | _ => false end.

Definition isWindowConfirm (e : Event) : bool :=
  match e with WindowConfirm _ => true | _ => false end.

(** A call that leaves the browser. *)
Definition isRemoteCall (e : Event) : bool :=
  isFetch e || isReposGet e || isOnPush e.

(** An error shown or logged. *)
Definition isErrorReport (e : Event) : bool :=
  match e with
  | ToastError _ | LogStoreError _ _ | ConsoleError _ _ => true
  | _ => false
  end.

(** The outcome of one submission, from the events it performed and the
    hooks it left. *)
Definition outcome (events : list Event) (after : Hooks) : PublishOutcome :=
  if existsb (isToast connect_first) events then Blocked NoCredential
  else if existsb (isToast name_required) events
  then Blocked EmptyRepositoryName
  else if existsb (isToast push_failed) events then Failed push_failed
  else if existsb isOnPush events
  then Succeeded (createdRepoUrl after) (pushedFiles after)
  else Cancelled.

(** The events a computation adds to the trace. *)
Definition events_of (m : M unit) (s : State) : list Event :=
  skipn (List.length (trace s)) (trace (snd (m s))).

(** The failure categories of the design document for a remote error, by
    HTTP status (section 7): 401 is an expired authentication, other 4xx
    statuses are a rejection, everything else (5xx, no status at all) is an
    unavailable remote. *)
Inductive ErrorCategory :=
| AuthenticationExpired
| RemoteRejected
| RemoteUnavailable.

Definition category_of (e : Thrown) : ErrorCategory :=
  match status e with
  | Some (VNum 401) => AuthenticationExpired
  | Some (VNum c) =>
      if (Z.leb 400 c && Z.leb c 499)%bool then RemoteRejected
      else RemoteUnavailable
  | _ => RemoteUnavailable
  end.

(** A stored connection that passes the first guard of [handleSubmit]. *)
Definition connected (u : GitHubUserResponse) (t : jsstring) : Connection :=
  {| user := Some u; token := Some t |}.

(** The state a submission ends in: the stored connection and the files are
    those of [s], the hooks are [h] with loading off, and [evs] was
    performed. *)
Definition finished (s : State) (h : Hooks) (evs : list Event) : State :=
  {| github_connection := github_connection s; files := files s;
     hooks := hooks (snd (setIsLoading false
                {| github_connection := github_connection s;
                   files := files s; hooks := h; trace := [] |}));
     trace := trace s ++ evs |}.

(** The state a submission stopped by a guard ends in: only the toast was
    added. *)
Definition toasted (s : State) (msg : jsstring) : State :=
  {| github_connection := github_connection s; files := files s;
     hooks := hooks s; trace := trace s ++ [ToastError msg] |}.

(** The hooks after a successful push. *)
Definition published (extractRelativePath : jsstring -> jsstring)
  (s : State) (url : jsstring) : Hooks :=
  hooks (snd ((setCreatedRepoUrl url ;;
               setPushedFiles (filesList extractRelativePath (files s)) ;;
               setShowSuccessDialog true) s)).

(** The existence check lets the submission through: the lookup failed
    without being rethrown, or the repository exists and the user agreed to
    update it. [pre] is what the check performed. *)
Definition passes (w : World) (s : State) (u : GitHubUserResponse)
  (t : jsstring) (pre : list Event) : Prop :=
  let lookup := ReposGet (trim t) (login u) (repoName (hooks s)) in
  (exists e, repos_get w (trim t) (login u) (repoName (hooks s)) = Rejects e /\
             rethrown e = false /\ pre = [lookup]) \/
  (repos_get w (trim t) (login u) (repoName (hooks s)) = Resolves tt /\
   window_confirm w (confirm_message (repoName (hooks s))) = true /\
   pre = [lookup; WindowConfirm (confirm_message (repoName (hooks s)))]).

(** Order-preserving selection: [l1] is [l2] with some elements left out. *)
Inductive Subsequence {A : Type} : list A -> list A -> Prop :=
| sub_nil : Subsequence [] []
| sub_skip x l1 l2 : Subsequence l1 l2 -> Subsequence l1 (x :: l2)
| sub_keep x l1 l2 : Subsequence l1 l2 -> Subsequence (x :: l1) (x :: l2).

(** File entries, and the binary ones among them. *)
Definition isFileEntry (e : jsstring * option Dirent) : bool :=
  match snd e with Some (File _ _) => true | _ => false end.

Definition isBinaryFile (e : jsstring * option Dirent) : bool :=
  match snd e with Some (File _ b) => b | _ => false end.

(** The strings a log line or a display shows. Calls to the remote service
    are not logs. *)
Definition strings_of_val (v : LogVal) : list jsstring :=
  match v with
  | LStr s => [s]
  | LErr e => [message e]
  | LJson (JOther raw) => [raw]
  | _ => []
  end.

Definition strings_of_payload (p : Payload) : list jsstring :=
  match p with
  | PNone => []
  | PObject fields => flat_map (fun f => strings_of_val (snd f)) fields
  | PValue v => strings_of_val v
  end.

Definition shown_strings (e : Event) : list jsstring :=
  match e with
  | ToastError m => [m]
  | LogStoreError m p => m :: strings_of_payload p
  | ConsoleLog m p => m :: strings_of_payload p
  | ConsoleError m p => m :: strings_of_payload p
  | WindowConfirm m => [m]
  | Fetch _ _ _ | ReposGet _ _ _ | OnPush _ _ _ _
  | LocalStorageRemoveItem _ => []
  end.


(** The messages put before the user as errors. *)
Definition user_messages (evs : list Event) : list jsstring :=
  flat_map (fun e => match e with ToastError m => [m] | _ => [] end) evs.

(** The number of bytes UTF-8 needs for a scalar value. *)
Definition utf8_width (cp : N) : nat :=
  if N.ltb cp 128 then 1
  else if N.ltb cp 2048 then 2
  else if N.ltb cp 65536 then 3
  else 4.

(** The byte length of the UTF-8 encoding of a string, counted scalar value
    by scalar value. *)
Definition utf8_byte_length (s : jsstring) : nat :=
  list_sum (map utf8_width (scalars s)).


(** ** Sample inputs *)

Definition octocat : GitHubUserResponse :=
  {| login := lit "octocat"; name := None;
     avatar_url := lit "https://avatars.githubusercontent.com/u/583231" |}.

Definition hooks0 (name : jsstring) : Hooks :=
  {| repoName := name; isPrivate := true; isLoading := false;
     userState := Some octocat; recentRepos := JEmptyObject;
     isFetchingRepos := false; showSuccessDialog := false;
     createdRepoUrl := []; pushedFiles := [] |}.

Definition state0 (stored : option Connection) (name : jsstring)
  (fs : FileMap) : State :=
  {| github_connection := stored; files := fs; hooks := hooks0 name;
     trace := [] |}.

(** A world that answers every call the same way. *)
Definition world0 (fetched : Settled Response) (found : Settled unit)
  (answer : bool) (pushed : Settled jsstring) : World :=
  {| fetch := fun _ _ _ => fetched;
     repos_get := fun _ _ _ => found;
     window_confirm := fun _ => answer;
     onPush := fun _ _ _ _ => pushed |}.

Definition response0 (code : Z) : Response :=
  {| resp_status := code; statusText := lit "status"; json := JsonValue JEmptyObject |}.

(** Dropping the work directory from a path. *)
Definition stripWorkDir (p : jsstring) : jsstring :=
  if startsWith (lit "/home/project/") p
  then skipn (List.length (lit "/home/project/")) p
  else p.

Definition demo_url : jsstring := lit "https://github.com/octocat/demo".

(** ** The rest of the dialog *)

Definition setRepoName (n : jsstring) : M unit :=
  setHooks (fun h =>
    {| repoName := n; isPrivate := isPrivate h; isLoading := isLoading h;
       userState := userState h; recentRepos := recentRepos h;
       isFetchingRepos := isFetchingRepos h;
       showSuccessDialog := showSuccessDialog h;
       createdRepoUrl := createdRepoUrl h; pushedFiles := pushedFiles h |}).

Definition setIsPrivate (b : bool) : M unit :=
  setHooks (fun h =>
    {| repoName := repoName h; isPrivate := b; isLoading := isLoading h;
       userState := userState h; recentRepos := recentRepos h;
       isFetchingRepos := isFetchingRepos h;
       showSuccessDialog := showSuccessDialog h;
       createdRepoUrl := createdRepoUrl h; pushedFiles := pushedFiles h |}).

(** Lines 204-210. [onClose] is the callback the parent passes in. *)
Definition handleClose (onClose : M unit) : M unit :=
  call (
    setRepoName [] ;;
    setIsPrivate false ;;
    setShowSuccessDialog false ;;
    setCreatedRepoUrl [] ;;
    onClose).

(** The three things the component can render, lines 213, 318 and 378. *)
Inductive View :=
| SuccessView
| ConnectionRequiredView
| FormView.

(** [if (showSuccessDialog) ...; if (!user) ...; ...] *)
Definition view (h : Hooks) : View :=
  if showSuccessDialog h then SuccessView
  else if negb (defined (userState h)) then ConnectionRequiredView
  else FormView.

(** The header of the file list, line 266: [pushedFiles.length]. *)
Definition pushedCount (h : Hooks) : nat := List.length (pushedFiles h).

(** The request [fetchRecentRepos] sends for a token. *)
Definition reposRequest (tk : jsstring) : Event :=
  Fetch repos_url accept (lit "token " ++ trim tk).

(** ** Properties *)

Arguments lit : simpl never.
Arguments trim : simpl never.
Arguments confirm_message : simpl never.

Example lit_hi : lit "hi" = [104; 105]%N.
Proof. reflexivity. Qed.

Example trim_inner : trim (lit "  a b  ") = lit "a b".
Proof. reflexivity. Qed.

Example encode_euro : TextEncoder_encode [8364%N] = [226; 130; 172]%N.
Proof. reflexivity. Qed.

Example encode_emoji :
  TextEncoder_encode [55357; 56832]%N = [240; 159; 152; 128]%N.
Proof. reflexivity. Qed.

Lemma skipn_length_app (A : Type) (l r : list A) :
  skipn (List.length l) (l ++ r) = r.
Proof. induction l; simpl; auto. Qed.

Lemma events_of_eq (m : M unit) (s : State) c h evs :
  m s = (c, finished s h evs) -> events_of m s = evs.
Proof.
  intros E. unfold events_of. rewrite E. simpl. apply skipn_length_app.
Qed.

Ltac enter_submit Hc Ht Hn :=
  unfold handleSubmit, call, bind, getLocalStorage, getState;
  rewrite Hc; simpl; rewrite Ht, Hn; simpl;
  unfold try_finally, try_catch, checkRepository, bind, try_catch; simpl.

Ltac tidy :=
  unfold finished, published, setIsLoading, setHooks, bind; simpl;
  repeat rewrite <- app_assoc; simpl; try reflexivity.

(** *** The paths of a submission whose guards pass *)

Section Ready.

Variable extractRelativePath : jsstring -> jsstring.
Variable w : World.
Variables (s : State) (u : GitHubUserResponse) (t : jsstring).
Hypothesis Hc : github_connection s = Some (connected u t).
Hypothesis Ht : truthy t = true.
Hypothesis Hn : truthy (trim (repoName (hooks s))) = true.

Local Abbreviation submit := (handleSubmit extractRelativePath w).
Local Abbreviation rname := (repoName (hooks s)).
Local Abbreviation lookup := (ReposGet (trim t) (login u) rname).
Local Abbreviation asked := (WindowConfirm (confirm_message rname)).
Local Abbreviation push := (OnPush rname (login u) t (isPrivate (hooks s))).
Local Abbreviation reported e :=
  [ConsoleError (lit "Error pushing to GitHub:") (PValue (LErr e));
   ToastError push_failed].

(** The repository exists and the user declines. *)
Lemma submit_declined :
  repos_get w (trim t) (login u) rname = Resolves tt ->
  window_confirm w (confirm_message rname) = false ->
  submit s = (Normal tt, finished s (hooks s) [lookup; asked]).
Proof.
  intros Hr Hw. enter_submit Hc Ht Hn.
  rewrite Hr. simpl. rewrite Hw. simpl. tidy.
Qed.

(** The failed lookup is rethrown by the existence check. *)
Lemma submit_lookup_rethrown e :
  repos_get w (trim t) (login u) rname = Rejects e ->
  rethrown e = true ->
  submit s = (Normal tt, finished s (hooks s) (lookup :: reported e)).
Proof.
  intros Hr He. enter_submit Hc Ht Hn.
  rewrite Hr. simpl. unfold when. rewrite He. simpl. tidy.
Qed.

Lemma submit_pushed pre url :
  passes w s u t pre ->
  onPush w rname (login u) t (isPrivate (hooks s)) = Resolves url ->
  submit s
  = (Normal tt,
     finished s (published extractRelativePath s url) (pre ++ [push])).
Proof.
  intros [(e & Hr & He & ->) | (Hr & Hw & ->)] Hp; enter_submit Hc Ht Hn;
    rewrite Hr; simpl.
  - unfold when. rewrite He. simpl. rewrite Hp. simpl. tidy.
  - rewrite Hw. simpl. rewrite Hp. simpl. tidy.
Qed.

Lemma submit_push_failed pre e :
  passes w s u t pre ->
  onPush w rname (login u) t (isPrivate (hooks s)) = Rejects e ->
  submit s = (Normal tt, finished s (hooks s) (pre ++ push :: reported e)).
Proof.
  intros [(e' & Hr & He & ->) | (Hr & Hw & ->)] Hp; enter_submit Hc Ht Hn;
    rewrite Hr; simpl.
  - unfold when. rewrite He. simpl. rewrite Hp. simpl. tidy.
  - rewrite Hw. simpl. rewrite Hp. simpl. tidy.
Qed.

(** Every submission whose guards pass takes one of these paths, and
    none of them throws. *)
Lemma submit_paths :
  exists h evs,
    submit s = (Normal tt, finished s h evs) /\
    ((repos_get w (trim t) (login u) rname = Resolves tt /\
      window_confirm w (confirm_message rname) = false /\
      evs = [lookup; asked]) \/
     (exists e, repos_get w (trim t) (login u) rname = Rejects e /\
                rethrown e = true /\ evs = lookup :: reported e) \/
     (exists pre, passes w s u t pre /\
        ((exists url,
            onPush w rname (login u) t (isPrivate (hooks s)) = Resolves url /\
            evs = pre ++ [push]) \/
         (exists e,
            onPush w rname (login u) t (isPrivate (hooks s)) = Rejects e /\
            evs = pre ++ push :: reported e)))).
Proof.
  assert (Hpush : forall pre, passes w s u t pre ->
    exists h evs,
      submit s = (Normal tt, finished s h evs) /\
      ((exists url,
          onPush w rname (login u) t (isPrivate (hooks s)) = Resolves url /\
          evs = pre ++ [push]) \/
       (exists e,
          onPush w rname (login u) t (isPrivate (hooks s)) = Rejects e /\
          evs = pre ++ push :: reported e))).
  { intros pre Hpass.
    destruct (onPush w rname (login u) t (isPrivate (hooks s)))
      as [url | e] eqn:Hp.
    - do 2 eexists. split; [apply (submit_pushed _ _ Hpass Hp) |].
      left. eauto.
    - do 2 eexists. split; [apply (submit_push_failed _ _ Hpass Hp) |].
      right. eauto. }
  destruct (repos_get w (trim t) (login u) rname) as [[] | e] eqn:Hr.
  - destruct (window_confirm w (confirm_message rname)) eqn:Hw.
    + destruct (Hpush [lookup; asked]) as (h & evs & E & Hev).
      { right. auto. }
      exists h, evs. split; [exact E |]. right. right.
      exists [lookup; asked]. split; [right; auto | exact Hev].
    + do 2 eexists. split; [apply (submit_declined Hr Hw) |]. auto.
  - destruct (rethrown e) eqn:He.
    + do 2 eexists. split; [apply (submit_lookup_rethrown _ Hr He) |].
      right. left. eauto.
    + destruct (Hpush [lookup]) as (h & evs & E & Hev).
      { left. eauto. }
      exists h, evs. split; [exact E |]. right. right.
      exists [lookup]. split; [left; eauto | exact Hev].
Qed.

End Ready.

(** *** The guards *)

Lemma events_of_toasted (m : M unit) (s : State) c msg :
  m s = (c, toasted s msg) -> events_of m s = [ToastError msg].
Proof.
  intros E. unfold events_of. rewrite E. simpl. apply skipn_length_app.
Qed.

(** No token, an empty token or no user: the submission stops at the first
    guard. *)
Lemma submit_no_credential
  (extractRelativePath : jsstring -> jsstring) (w : World) (s : State) :
  opt_truthy (token_of (github_connection s)) = false \/
  user_of (github_connection s) = None ->
  handleSubmit extractRelativePath w s = (Normal tt, toasted s connect_first).
Proof.
  intros H. unfold handleSubmit, call, bind, getLocalStorage, getState.
  destruct (token_of (github_connection s)) as [tk |];
    destruct (user_of (github_connection s)) as [us |]; simpl in *;
    try reflexivity.
  - destruct H as [H | H]; [| discriminate]. rewrite H. reflexivity.
Qed.

(** A name that is empty once trimmed: the submission stops at the second
    guard. *)
Lemma submit_no_name
  (extractRelativePath : jsstring -> jsstring) (w : World) (s : State)
  (u : GitHubUserResponse) (t : jsstring) :
  github_connection s = Some (connected u t) ->
  truthy t = true ->
  truthy (trim (repoName (hooks s))) = false ->
  handleSubmit extractRelativePath w s = (Normal tt, toasted s name_required).
Proof.
  intros Hc Ht Hn. unfold handleSubmit, call, bind, getLocalStorage, getState.
  rewrite Hc. simpl. rewrite Ht, Hn. reflexivity.
Qed.

(** A submission never throws, never touches the stored connection or the
    files, and only adds to the trace. *)
Lemma submit_total
  (extractRelativePath : jsstring -> jsstring) (w : World) (s : State) :
  exists h evs,
    handleSubmit extractRelativePath w s
    = (Normal tt,
       {| github_connection := github_connection s; files := files s;
          hooks := h; trace := trace s ++ evs |}).
Proof.
  destruct (opt_truthy (token_of (github_connection s))) eqn:Htok.
  - destruct (user_of (github_connection s)) as [u |] eqn:Hu.
    + destruct (github_connection s) as [[[u' |] [t |]] |] eqn:Hc;
        simpl in Htok, Hu; try discriminate.
      injection Hu as ->.
      destruct (truthy (trim (repoName (hooks s)))) eqn:Hn.
      * destruct (submit_paths extractRelativePath w s u t Hc Htok Hn)
          as (h & evs & E & _).
        rewrite E, <- Hc. unfold finished. eauto.
      * rewrite (submit_no_name extractRelativePath w s u t Hc Htok Hn),
          <- Hc.
        unfold toasted. eauto.
    + rewrite (submit_no_credential extractRelativePath w s (or_intror Hu)).
      unfold toasted. eauto.
  - rewrite (submit_no_credential extractRelativePath w s (or_introl Htok)).
    unfold toasted. eauto.
Qed.

(** With no token or an empty one stored, the submission is blocked before
    any remote call. *)
Lemma missing_token_blocked
  (extractRelativePath : jsstring -> jsstring) (w : World) (s : State) :
  token_of (github_connection s) = None \/
  token_of (github_connection s) = Some [] ->
  let evs := events_of (handleSubmit extractRelativePath w) s in
  evs = [ToastError connect_first] /\
  existsb isRemoteCall evs = false /\
  outcome evs (hooks (snd (handleSubmit extractRelativePath w s)))
  = Blocked NoCredential.
Proof.
  intros H evs.
  assert (Htok : opt_truthy (token_of (github_connection s)) = false)
    by (destruct H as [-> | ->]; reflexivity).
  pose proof (submit_no_credential extractRelativePath w s (or_introl Htok))
    as E.
  subst evs. rewrite (events_of_toasted _ _ _ _ E). repeat split.
Qed.

(** *** The existence check *)

Lemma rethrown_404 msg : rethrown (RequestError 404 msg) = false.
Proof. reflexivity. Qed.

Lemma rethrown_other code msg :
  code <> 404%Z -> rethrown (RequestError code msg) = true.
Proof.
  intros H. unfold rethrown. simpl.
  destruct (Z.eqb_spec code 404); [contradiction | reflexivity].
Qed.

Lemma checkRepository_rejects w auth owner rname e s' :
  repos_get w auth owner rname = Rejects e ->
  fst (checkRepository w auth owner rname s')
  = if rethrown e then Throw e else Normal tt.
Proof.
  intros Hr. unfold checkRepository, try_catch, bind. simpl.
  rewrite Hr. simpl. unfold when. destruct (rethrown e); reflexivity.
Qed.

(** C1. A lookup that fails with an HTTP status rejects with Octokit's
    [RequestError]. With status 404 the existence check completes normally
    and the push follows the lookup directly, with no confirmation asked;
    with any other status the check throws the error on, no push is made,
    and the submission reports the failure. *)
Theorem lookup_status_decides
  (extractRelativePath : jsstring -> jsstring) (w : World) (s : State)
  (u : GitHubUserResponse) (t : jsstring) (code : Z) (msg : jsstring) :
  github_connection s = Some (connected u t) ->
  truthy t = true ->
  truthy (trim (repoName (hooks s))) = true ->
  repos_get w (trim t) (login u) (repoName (hooks s))
  = Rejects (RequestError code msg) ->
  let evs := events_of (handleSubmit extractRelativePath w) s in
  let lookup := ReposGet (trim t) (login u) (repoName (hooks s)) in
  let push := OnPush (repoName (hooks s)) (login u) t (isPrivate (hooks s)) in
  (code = 404%Z ->
     (forall s', fst (checkRepository w (trim t) (login u)
                        (repoName (hooks s)) s') = Normal tt) /\
     existsb isWindowConfirm evs = false /\
     exists rest, evs = lookup :: push :: rest) /\
  (code <> 404%Z ->
     (forall s', fst (checkRepository w (trim t) (login u)
                        (repoName (hooks s)) s')
                 = Throw (RequestError code msg)) /\
     existsb isOnPush evs = false /\
     existsb isWindowConfirm evs = false /\
     evs = [lookup;
            ConsoleError (lit "Error pushing to GitHub:")
              (PValue (LErr (RequestError code msg)));
            ToastError push_failed]).
Proof.
  intros Hc Ht Hn Hr evs lookup push. split.
  - intros ->. split.
    + intros s'. rewrite (checkRepository_rejects _ _ _ _ _ _ Hr). reflexivity.
    + assert (Hpass : passes w s u t [lookup]).
      { left. exists (RequestError 404 msg). auto using rethrown_404. }
      subst evs.
      destruct (onPush w (repoName (hooks s)) (login u) t
                  (isPrivate (hooks s))) as [url | e] eqn:Hp.
      * rewrite (events_of_eq _ _ _ _ _
                   (submit_pushed extractRelativePath _ _ _ _
                      Hc Ht Hn _ _ Hpass Hp)).
        split; [reflexivity | eexists; reflexivity].
      * rewrite (events_of_eq _ _ _ _ _
                   (submit_push_failed extractRelativePath _ _ _ _
                      Hc Ht Hn _ _ Hpass Hp)).
        split; [reflexivity | eexists; reflexivity].
  - intros Hcode. pose proof (rethrown_other _ msg Hcode) as He. split.
    + intros s'. rewrite (checkRepository_rejects _ _ _ _ _ _ Hr), He.
      reflexivity.
    + subst evs.
      rewrite (events_of_eq _ _ _ _ _
                 (submit_lookup_rethrown extractRelativePath _ _ _ _
                    Hc Ht Hn _ Hr He)).
      repeat split.
Qed.

Lemma lookup_status_decides_witness :
  let w := world0 (Resolves (response0 200))
             (Rejects (RequestError 401 (lit "Bad credentials")))
             true (Resolves demo_url) in
  let s := state0 (Some (connected octocat (lit "ghp_0123456789abcdef")))
             (lit "demo") [] in
  existsb isOnPush (events_of (handleSubmit stripWorkDir w) s) = false.
Proof.
  intros w s.
  refine (proj1 (proj2 (proj2 (lookup_status_decides stripWorkDir w s octocat
            (lit "ghp_0123456789abcdef") 401 (lit "Bad credentials")
            eq_refl eq_refl eq_refl eq_refl) _))).
  discriminate.
Defined.

(** C2. When the repository exists and the user declines the update, the
    submission ends without throwing and without any error shown or logged,
    the only effects are the lookup and the question, [onPush] is not
    called, and loading is switched off: a cancelled attempt. *)
Theorem declined_overwrite_cancels
  (extractRelativePath : jsstring -> jsstring) (w : World) (s : State)
  (u : GitHubUserResponse) (t : jsstring) :
  github_connection s = Some (connected u t) ->
  truthy t = true ->
  truthy (trim (repoName (hooks s))) = true ->
  repos_get w (trim t) (login u) (repoName (hooks s)) = Resolves tt ->
  window_confirm w (confirm_message (repoName (hooks s))) = false ->
  let evs := events_of (handleSubmit extractRelativePath w) s in
  let final := snd (handleSubmit extractRelativePath w s) in
  fst (handleSubmit extractRelativePath w s) = Normal tt /\
  evs = [ReposGet (trim t) (login u) (repoName (hooks s));
         WindowConfirm (confirm_message (repoName (hooks s)))] /\
  existsb isOnPush evs = false /\
  existsb isErrorReport evs = false /\
  outcome evs (hooks final) = Cancelled /\
  isLoading (hooks final) = false /\
  showSuccessDialog (hooks final) = showSuccessDialog (hooks s).
Proof.
  intros Hc Ht Hn Hr Hw evs final.
  pose proof (submit_declined extractRelativePath w s u t Hc Ht Hn Hr Hw)
    as E.
  subst evs final. rewrite (events_of_eq _ _ _ _ _ E), E.
  repeat split.
Qed.

Lemma declined_overwrite_cancels_witness :
  let w := world0 (Resolves (response0 200)) (Resolves tt) false
             (Resolves demo_url) in
  let s := state0 (Some (connected octocat (lit "ghp_0123456789abcdef")))
             (lit "demo") [] in
  outcome (events_of (handleSubmit stripWorkDir w) s)
    (hooks (snd (handleSubmit stripWorkDir w s))) = Cancelled.
Proof.
  intros w s.
  exact (proj1 (proj2 (proj2 (proj2 (proj2
           (declined_overwrite_cancels stripWorkDir w s octocat
              (lit "ghp_0123456789abcdef")
              eq_refl eq_refl eq_refl eq_refl eq_refl)))))).
Defined.

(** C9. A lookup that rejects with something that is not an [Error], or
    with an [Error] that has no [status], is swallowed by the existence
    check: the check completes normally, no question is asked, the push
    follows the lookup, and the whole submission runs exactly as it does
    when the lookup answers 404. *)
Theorem unrecognised_lookup_error_swallowed
  (extractRelativePath : jsstring -> jsstring) (w : World) (s : State)
  (u : GitHubUserResponse) (t : jsstring) (e : Thrown) :
  github_connection s = Some (connected u t) ->
  truthy t = true ->
  truthy (trim (repoName (hooks s))) = true ->
  repos_get w (trim t) (login u) (repoName (hooks s)) = Rejects e ->
  instanceofError e = false \/ status e = None ->
  let evs := events_of (handleSubmit extractRelativePath w) s in
  let lookup := ReposGet (trim t) (login u) (repoName (hooks s)) in
  let push := OnPush (repoName (hooks s)) (login u) t (isPrivate (hooks s)) in
  (forall s', fst (checkRepository w (trim t) (login u)
                     (repoName (hooks s)) s') = Normal tt) /\
  (exists rest, evs = lookup :: push :: rest) /\
  existsb isWindowConfirm evs = false /\
  (forall w' msg,
     repos_get w' (trim t) (login u) (repoName (hooks s))
     = Rejects (RequestError 404 msg) ->
     onPush w' (repoName (hooks s)) (login u) t (isPrivate (hooks s))
     = onPush w (repoName (hooks s)) (login u) t (isPrivate (hooks s)) ->
     handleSubmit extractRelativePath w' s
     = handleSubmit extractRelativePath w s).
Proof.
  intros Hc Ht Hn Hr Hkind evs lookup push.
  assert (He : rethrown e = false).
  { unfold rethrown. destruct Hkind as [-> | ->]; [reflexivity |].
    apply andb_false_r. }
  assert (Hpass : passes w s u t [lookup]) by (left; eauto).
  split.
  { intros s'. rewrite (checkRepository_rejects _ _ _ _ _ _ Hr), He.
    reflexivity. }
  subst evs.
  destruct (onPush w (repoName (hooks s)) (login u) t (isPrivate (hooks s)))
    as [url | e'] eqn:Hp.
  - pose proof (submit_pushed extractRelativePath _ _ _ _ Hc Ht Hn _ _
                  Hpass Hp) as E.
    rewrite (events_of_eq _ _ _ _ _ E).
    split; [eexists; reflexivity |]. split; [reflexivity |].
    intros w' msg Hr' Hp'. rewrite E.
    apply (submit_pushed extractRelativePath _ _ _ _ Hc Ht Hn [lookup]);
      [| exact Hp'].
    left. exists (RequestError 404 msg). auto using rethrown_404.
  - pose proof (submit_push_failed extractRelativePath _ _ _ _ Hc Ht Hn _ _
                  Hpass Hp) as E.
    rewrite (events_of_eq _ _ _ _ _ E).
    split; [eexists; reflexivity |]. split; [reflexivity |].
    intros w' msg Hr' Hp'. rewrite E.
    apply (submit_push_failed extractRelativePath _ _ _ _ Hc Ht Hn [lookup]);
      [| exact Hp'].
    left. exists (RequestError 404 msg). auto using rethrown_404.
Qed.

Lemma unrecognised_lookup_error_swallowed_witness :
  let timeout :=
    {| instanceofError := true; status := None;
       message := lit "network timeout" |} in
  let w := world0 (Resolves (response0 200)) (Rejects timeout) false
             (Resolves demo_url) in
  let s := state0 (Some (connected octocat (lit "ghp_0123456789abcdef")))
             (lit "demo") [] in
  exists rest,
    events_of (handleSubmit stripWorkDir w) s
    = ReposGet (lit "ghp_0123456789abcdef") (lit "octocat") (lit "demo")
      :: OnPush (lit "demo") (lit "octocat") (lit "ghp_0123456789abcdef") true
      :: rest.
Proof.
  intros timeout w s.
  exact (proj1 (proj2
           (unrecognised_lookup_error_swallowed stripWorkDir w s octocat
              (lit "ghp_0123456789abcdef") timeout
              eq_refl eq_refl eq_refl eq_refl (or_intror eq_refl)))).
Defined.

Ltac in_cases H :=
  simpl in H;
  repeat (destruct H as [H | H]);
  try discriminate H; try contradiction;
  try (inversion H; subst; reflexivity).

(** C10. A name whose trimmed form is not empty passes the local check, and
    the name as typed, untrimmed, is the repository given to the lookup and
    to every call of [onPush]; [onPush] is called whenever the existence
    check lets the submission through. *)
Theorem untrimmed_name_passed_verbatim
  (extractRelativePath : jsstring -> jsstring) (w : World) (s : State)
  (u : GitHubUserResponse) (t : jsstring) :
  github_connection s = Some (connected u t) ->
  truthy t = true ->
  truthy (trim (repoName (hooks s))) = true ->
  let evs := events_of (handleSubmit extractRelativePath w) s in
  existsb (isToast name_required) evs = false /\
  (exists rest,
     evs = ReposGet (trim t) (login u) (repoName (hooks s)) :: rest) /\
  (forall a o r, In (ReposGet a o r) evs -> r = repoName (hooks s)) /\
  (forall n un tk p, In (OnPush n un tk p) evs -> n = repoName (hooks s)) /\
  (forall pre, passes w s u t pre ->
     In (OnPush (repoName (hooks s)) (login u) t (isPrivate (hooks s))) evs).
Proof.
  intros Hc Ht Hn evs. subst evs.
  destruct (submit_paths extractRelativePath w s u t Hc Ht Hn)
    as (h & evs & E & Hcases).
  rewrite (events_of_eq _ _ _ _ _ E).
  destruct Hcases as
    [(Hr & Hw & ->) | [(e & Hr & He & ->) | (pre & Hpass & Hpush)]].
  - repeat split.
    + eexists; reflexivity.
    + intros a o r H. in_cases H.
    + intros n un tk p H. in_cases H.
    + intros pre [(e & Hr' & _) | (_ & Hw' & _)]; congruence.
  - repeat split.
    + eexists; reflexivity.
    + intros a o r H. in_cases H.
    + intros n un tk p H. in_cases H.
    + intros pre [(e' & Hr' & He' & _) | (Hr' & _)]; congruence.
  - destruct Hpass as [(e & Hr & He & ->) | (Hr & Hw & ->)];
      destruct Hpush as [(url & Hp & ->) | (e' & Hp & ->)];
      (repeat split;
       [ eexists; reflexivity
       | intros a o r H; in_cases H
       | intros n un tk p H; in_cases H
       | intros pre' _; simpl; auto ]).
Qed.

Lemma untrimmed_name_passed_verbatim_witness :
  let w := world0 (Resolves (response0 200))
             (Rejects (RequestError 404 (lit "Not Found"))) false
             (Resolves demo_url) in
  let s := state0 (Some (connected octocat (lit "ghp_0123456789abcdef")))
             (lit "  demo ") [] in
  trim (lit "  demo ") <> lit "  demo " /\
  forall n un tk p,
    In (OnPush n un tk p) (events_of (handleSubmit stripWorkDir w) s) ->
    n = lit "  demo ".
Proof.
  intros w s. split; [discriminate |].
  exact (proj1 (proj2 (proj2 (proj2
           (untrimmed_name_passed_verbatim stripWorkDir w s octocat
              (lit "ghp_0123456789abcdef") eq_refl eq_refl eq_refl))))).
Defined.

(** *** The manifest *)

Lemma or_empty_id (c : jsstring) : or_empty c = c.
Proof. destruct c; reflexivity. Qed.

Lemma utf8_of_scalar_length (cp : N) :
  List.length (utf8_of_scalar cp) = utf8_width cp.
Proof.
  unfold utf8_of_scalar, utf8_width.
  destruct (N.ltb cp 128); [reflexivity |].
  destruct (N.ltb cp 2048); [reflexivity |].
  destruct (N.ltb cp 65536); reflexivity.
Qed.

Lemma encode_length (s : jsstring) :
  List.length (TextEncoder_encode s) = utf8_byte_length s.
Proof.
  unfold TextEncoder_encode, utf8_byte_length.
  induction (scalars s) as [| cp l IH]; simpl; [reflexivity |].
  rewrite length_app, utf8_of_scalar_length, IH. reflexivity.
Qed.

Lemma utf8_width_pos (cp : N) : 1 <= utf8_width cp.
Proof.
  unfold utf8_width.
  destruct (N.ltb cp 128); [lia |].
  destruct (N.ltb cp 2048); [lia |].
  destruct (N.ltb cp 65536); lia.
Qed.

(** No string encodes to fewer bytes than it has characters. *)
Lemma encode_length_ge_characters (s : jsstring) :
  List.length (scalars s) <= List.length (TextEncoder_encode s).
Proof.
  rewrite encode_length. unfold utf8_byte_length.
  induction (scalars s) as [| cp l IH]; simpl; [lia |].
  pose proof (utf8_width_pos cp). lia.
Qed.

Lemma filter_pushed_subsequence (fs : FileMap) :
  Subsequence (filter isPushedEntry fs) fs.
Proof.
  induction fs as [| e fs IH]; simpl; [constructor |].
  destruct (isPushedEntry e); constructor; exact IH.
Qed.

Lemma pushed_count (fs : FileMap) :
  List.length (filter isPushedEntry fs)
  + List.length (filter isBinaryFile fs)
  = List.length (filter isFileEntry fs).
Proof.
  induction fs as [| [p [[c [|]|]|]] fs IH]; simpl; lia.
Qed.

(** C6. The manifest has one entry per selected file, in the order of the
    file map; a file of the map is selected if and only if its [isBinary]
    flag is false; and with N files of which K are binary the manifest has
    N - K entries. *)
Theorem manifest_is_nonbinary_files
  (extractRelativePath : jsstring -> jsstring) (fs : FileMap) :
  let selected := filter isPushedEntry fs in
  let manifest := filesList extractRelativePath fs in
  Subsequence selected fs /\
  manifest = map (toPushedFile extractRelativePath) selected /\
  map path manifest = map (fun e => extractRelativePath (fst e)) selected /\
  (forall p c b,
     In (p, Some (File c b)) fs ->
     (In (p, Some (File c b)) selected <-> b = false)) /\
  (forall e, In e selected -> isFileEntry e = true) /\
  List.length manifest
  = List.length (filter isFileEntry fs)
    - List.length (filter isBinaryFile fs) /\
  List.length (filter isBinaryFile fs) <= List.length (filter isFileEntry fs).
Proof.
  intros selected manifest. subst selected manifest.
  split; [apply filter_pushed_subsequence |].
  split; [reflexivity |].
  split; [unfold filesList; rewrite map_map; reflexivity |].
  split.
  { intros p c b Hin. rewrite filter_In. unfold isPushedEntry. simpl.
    split.
    - intros [_ H]. destruct b; [discriminate | reflexivity].
    - intros ->. auto. }
  split.
  { intros [p d] H. apply filter_In in H. destruct H as [_ H].
    unfold isPushedEntry, isFileEntry in *. simpl in *.
    destruct d as [[c b |] |]; [reflexivity | discriminate | discriminate]. }
  unfold filesList. rewrite length_map.
  pose proof (pushed_count fs). lia.
Qed.

Lemma toPushedFile_size (extractRelativePath : jsstring -> jsstring)
  (e : jsstring * option Dirent) :
  size (toPushedFile extractRelativePath e)
  = List.length (TextEncoder_encode (contentOf (snd e))).
Proof.
  unfold toPushedFile. cbn [size]. rewrite or_empty_id. reflexivity.
Qed.

(** C7. The size of every manifest entry is the number of bytes of the
    UTF-8 encoding of the content of its file, that is the sum of the
    UTF-8 widths of its characters, and never less than the number of
    characters; the five characters of "héllo" give size 6. *)
Theorem manifest_size_is_utf8_byte_length
  (extractRelativePath : jsstring -> jsstring) (fs : FileMap) :
  Forall2
    (fun e f =>
       size f = List.length (TextEncoder_encode (contentOf (snd e))) /\
       size f = utf8_byte_length (contentOf (snd e)) /\
       List.length (scalars (contentOf (snd e))) <= size f)
    (filter isPushedEntry fs) (filesList extractRelativePath fs) /\
  (forall p c,
     filesList extractRelativePath [(p, Some (File c false))]
     = [{| path := extractRelativePath p;
           size := List.length (TextEncoder_encode c) |}]) /\
  (let hello := [104; 233; 108; 108; 111]%N in
   List.length hello = 5 /\
   forall p,
     filesList extractRelativePath [(p, Some (File hello false))]
     = [{| path := extractRelativePath p; size := 6 |}]).
Proof.
  split; [| split].
  - unfold filesList.
    induction (filter isPushedEntry fs) as [| e l IH]; cbn [map];
      constructor; [| exact IH].
    rewrite toPushedFile_size.
    split; [reflexivity |].
    split; [apply encode_length | apply encode_length_ge_characters].
  - intros p c. unfold filesList. cbn [filter isPushedEntry snd negb map].
    unfold toPushedFile. cbn [fst snd contentOf].
    rewrite or_empty_id. reflexivity.
  - split; [reflexivity |]. intros p. reflexivity.
Qed.

(** A successful submission stores exactly this manifest, together with
    the address [onPush] returned, and shows the success dialog. *)
Lemma submit_stores_manifest
  (extractRelativePath : jsstring -> jsstring) (w : World) (s : State)
  (u : GitHubUserResponse) (t : jsstring) (pre : list Event)
  (url : jsstring) :
  github_connection s = Some (connected u t) ->
  truthy t = true ->
  truthy (trim (repoName (hooks s))) = true ->
  passes w s u t pre ->
  onPush w (repoName (hooks s)) (login u) t (isPrivate (hooks s))
  = Resolves url ->
  let final := snd (handleSubmit extractRelativePath w s) in
  pushedFiles (hooks final) = filesList extractRelativePath (files s) /\
  createdRepoUrl (hooks final) = url /\
  showSuccessDialog (hooks final) = true /\
  outcome (events_of (handleSubmit extractRelativePath w) s) (hooks final)
  = Succeeded url (filesList extractRelativePath (files s)).
Proof.
  intros Hc Ht Hn Hpass Hp final.
  pose proof (submit_pushed extractRelativePath _ _ _ _ Hc Ht Hn _ _
                Hpass Hp) as E.
  subst final. rewrite (events_of_eq _ _ _ _ _ E), E.
  destruct Hpass as [(e & _ & _ & ->) | (_ & _ & ->)]; repeat split.
Qed.

(** The end-to-end example of the design: one text file and one image. *)
Example demo_submission :
  let w := world0 (Resolves (response0 200))
             (Rejects (RequestError 404 (lit "Not Found"))) false
             (Resolves demo_url) in
  let s := state0 (Some (connected octocat (lit "ghp_0123456789abcdef")))
             (lit "demo")
             [(lit "/home/project/src", Some Folder);
              (lit "/home/project/src/a.ts", Some (File (lit "x") false));
              (lit "/home/project/logo.png", Some (File [] true))] in
  outcome (events_of (handleSubmit stripWorkDir w) s)
    (hooks (snd (handleSubmit stripWorkDir w s)))
  = Succeeded demo_url [{| path := lit "src/a.ts"; size := 1 |}].
Proof. vm_compute. reflexivity. Qed.

(** *** Authentication failures *)

Lemma truthy_trim (t : jsstring) : truthy (trim t) = true -> truthy t = true.
Proof. destruct t; [discriminate | reflexivity]. Qed.

Lemma str_eqb_nil (x : jsstring) : str_eqb x [] = negb (truthy x).
Proof. destruct x; reflexivity. Qed.

Lemma fetch_guard (t : jsstring) :
  (negb (truthy t) || str_eqb (trim t) [])%bool = negb (truthy (trim t)).
Proof.
  rewrite str_eqb_nil. destruct (truthy (trim t)) eqn:E; simpl.
  - rewrite (truthy_trim _ E). reflexivity.
  - apply orb_true_r.
Qed.

(** In [fetchRecentRepos] a 401 answer is told to the user as an expired
    token and the stored connection is removed. *)
Lemma fetch_401_clears_credential (w : World) (tk : jsstring) (s : State)
  (r : Response) :
  truthy (trim tk) = true ->
  fetch w repos_url accept (lit "token " ++ trim tk) = Resolves r ->
  resp_status r = 401%Z ->
  let final := snd (fetchRecentRepos w tk s) in
  fst (fetchRecentRepos w tk s) = Normal tt /\
  github_connection final = None /\
  user_messages (events_of (fetchRecentRepos w tk) s) = [token_expired] /\
  (github_connection s <> None -> userState (hooks final) = None).
Proof.
  intros Ht Hf Hs final. subst final.
  unfold events_of, fetchRecentRepos. rewrite fetch_guard, Ht.
  unfold call, try_finally, try_catch, bind. simpl. simpl in Hf.
  rewrite Hf. simpl. unfold ok. rewrite Hs. simpl.
  unfold getLocalStorage, bind. simpl.
  destruct (github_connection s) as [c |] eqn:Hc; simpl;
    repeat rewrite <- app_assoc; rewrite skipn_length_app;
    repeat split; try reflexivity; try congruence.
Qed.

(** C3 (in the code). A 401 from the lookup or from the push is not told
    apart from any other failure of a submission: the stored connection is
    kept and the user gets the general message about the repository name.
    Only [fetchRecentRepos] removes the connection
    ([fetch_401_clears_credential]). *)
Theorem submit_401_keeps_credential
  (extractRelativePath : jsstring -> jsstring) (w : World) (s : State)
  (u : GitHubUserResponse) (t : jsstring) (msg : jsstring) :
  github_connection s = Some (connected u t) ->
  truthy t = true ->
  truthy (trim (repoName (hooks s))) = true ->
  repos_get w (trim t) (login u) (repoName (hooks s))
  = Rejects (RequestError 401 msg) \/
  (exists pre,
     passes w s u t pre /\
     onPush w (repoName (hooks s)) (login u) t (isPrivate (hooks s))
     = Rejects (RequestError 401 msg)) ->
  let evs := events_of (handleSubmit extractRelativePath w) s in
  let final := snd (handleSubmit extractRelativePath w s) in
  github_connection final = Some (connected u t) /\
  user_messages evs = [push_failed] /\
  outcome evs (hooks final) = Failed push_failed /\
  ~ In (LocalStorageRemoveItem (lit "github_connection")) evs.
Proof.
  intros Hc Ht Hn H evs final. subst evs final.
  destruct H as [Hr | (pre & Hpass & Hp)].
  - pose proof (submit_lookup_rethrown extractRelativePath _ _ _ _ Hc Ht Hn
                  _ Hr (rethrown_other 401 msg ltac:(discriminate))) as E.
    rewrite (events_of_eq _ _ _ _ _ E), E.
    repeat split; try exact Hc. intros H. in_cases H.
  - pose proof (submit_push_failed extractRelativePath _ _ _ _ Hc Ht Hn
                  _ _ Hpass Hp) as E.
    rewrite (events_of_eq _ _ _ _ _ E), E.
    destruct Hpass as [(e & _ & _ & ->) | (_ & _ & ->)];
      (repeat split; try exact Hc; intros H; in_cases H).
Qed.

Lemma submit_401_keeps_credential_witness :
  let w := world0 (Resolves (response0 200))
             (Rejects (RequestError 401 (lit "Bad credentials")))
             true (Resolves demo_url) in
  let s := state0 (Some (connected octocat (lit "ghp_0123456789abcdef")))
             (lit "demo") [] in
  github_connection (snd (handleSubmit stripWorkDir w s))
  = Some (connected octocat (lit "ghp_0123456789abcdef")).
Proof.
  intros w s.
  exact (proj1 (submit_401_keeps_credential stripWorkDir w s octocat
                  (lit "ghp_0123456789abcdef") (lit "Bad credentials")
                  eq_refl eq_refl eq_refl (or_introl eq_refl))).
Defined.

(** C5 (in the code). A stored token made of white space only is not
    empty, so the first guard lets it through: the lookup is sent, with an
    empty credential, and the submission is not blocked. *)
Theorem whitespace_token_reaches_network
  (extractRelativePath : jsstring -> jsstring) (w : World) (s : State)
  (u : GitHubUserResponse) (t : jsstring) :
  github_connection s = Some (connected u t) ->
  truthy t = true ->
  trim t = [] ->
  truthy (trim (repoName (hooks s))) = true ->
  let evs := events_of (handleSubmit extractRelativePath w) s in
  (exists rest, evs = ReposGet [] (login u) (repoName (hooks s)) :: rest) /\
  existsb isRemoteCall evs = true /\
  existsb (isToast connect_first) evs = false /\
  outcome evs (hooks (snd (handleSubmit extractRelativePath w s)))
  <> Blocked NoCredential.
Proof.
  intros Hc Ht Htrim Hn evs. subst evs.
  destruct (submit_paths extractRelativePath w s u t Hc Ht Hn)
    as (h & evs & E & Hcases).
  rewrite (events_of_eq _ _ _ _ _ E), E. rewrite Htrim in *.
  destruct Hcases as
    [(Hr & Hw & ->) | [(e & Hr & He & ->) | (pre & Hpass & Hpush)]].
  - repeat split; [eexists; reflexivity | discriminate].
  - repeat split; [eexists; reflexivity | discriminate].
  - unfold passes in Hpass. rewrite Htrim in Hpass.
    destruct Hpass as [(e & Hr & He & ->) | (Hr & Hw & ->)];
      destruct Hpush as [(url & Hp & ->) | (e' & Hp & ->)];
      (repeat split; [eexists; reflexivity | discriminate]).
Qed.

Lemma whitespace_token_reaches_network_witness :
  let w := world0 (Resolves (response0 200))
             (Rejects (RequestError 401 (lit "Requires authentication")))
             true (Resolves demo_url) in
  let s := state0 (Some (connected octocat (lit "   "))) (lit "demo") [] in
  existsb isRemoteCall (events_of (handleSubmit stripWorkDir w) s) = true.
Proof.
  intros w s.
  exact (proj1 (proj2 (whitespace_token_reaches_network stripWorkDir w s
                         octocat (lit "   ")
                         eq_refl eq_refl eq_refl eq_refl))).
Defined.

(** *** Failures of a submission *)

(** C4, as stated, fails: a rejected request (403) and an unavailable
    service (503) are different categories of failure, and the user is
    shown the same message for both. *)
Lemma distinct_categories_same_message :
  let rejected := RequestError 403 (lit "Forbidden") in
  let unavailable := RequestError 503 (lit "Service Unavailable") in
  let s := state0 (Some (connected octocat (lit "ghp_0123456789abcdef")))
             (lit "demo") [] in
  let run e :=
    events_of (handleSubmit stripWorkDir
                 (world0 (Resolves (response0 200)) (Rejects e) false
                    (Resolves demo_url))) s in
  category_of rejected <> category_of unavailable /\
  user_messages (run rejected) = [push_failed] /\
  user_messages (run unavailable) = [push_failed].
Proof.
  vm_compute. repeat split. discriminate.
Qed.

(** C4, amended. No submission throws, whatever the stored state and the
    answers of the remote service. An error of the lookup that the
    existence check throws on, or an error of the push, other than an
    authentication failure, is logged once and told to the user once, with
    the one general message of a failed push; failures are not told
    apart. *)
Theorem remote_errors_reported_generically
  (extractRelativePath : jsstring -> jsstring) (w : World) (s : State) :
  fst (handleSubmit extractRelativePath w s) = Normal tt /\
  forall u t e,
    github_connection s = Some (connected u t) ->
    truthy t = true ->
    truthy (trim (repoName (hooks s))) = true ->
    (repos_get w (trim t) (login u) (repoName (hooks s)) = Rejects e /\
     rethrown e = true) \/
    (exists pre,
       passes w s u t pre /\
       onPush w (repoName (hooks s)) (login u) t (isPrivate (hooks s))
       = Rejects e) ->
    category_of e <> AuthenticationExpired ->
    let evs := events_of (handleSubmit extractRelativePath w) s in
    filter isErrorReport evs
    = [ConsoleError (lit "Error pushing to GitHub:") (PValue (LErr e));
       ToastError push_failed] /\
    user_messages evs = [push_failed] /\
    outcome evs (hooks (snd (handleSubmit extractRelativePath w s)))
    = Failed push_failed.
Proof.
  split.
  { destruct (submit_total extractRelativePath w s) as (h & evs & ->).
    reflexivity. }
  intros u t e Hc Ht Hn H _ evs. subst evs.
  destruct H as [[Hr He] | (pre & Hpass & Hp)].
  - pose proof (submit_lookup_rethrown extractRelativePath _ _ _ _ Hc Ht Hn
                  _ Hr He) as E.
    rewrite (events_of_eq _ _ _ _ _ E), E. repeat split.
  - pose proof (submit_push_failed extractRelativePath _ _ _ _ Hc Ht Hn
                  _ _ Hpass Hp) as E.
    rewrite (events_of_eq _ _ _ _ _ E), E.
    destruct Hpass as [(e' & _ & _ & ->) | (_ & _ & ->)]; repeat split.
Qed.

Lemma remote_errors_reported_generically_witness :
  let unavailable := RequestError 503 (lit "Service Unavailable") in
  let w := world0 (Resolves (response0 200)) (Rejects unavailable) false
             (Resolves demo_url) in
  let s := state0 (Some (connected octocat (lit "ghp_0123456789abcdef")))
             (lit "demo") [] in
  user_messages (events_of (handleSubmit stripWorkDir w) s) = [push_failed].
Proof.
  intros unavailable w s.
  refine (proj1 (proj2 (proj2 (remote_errors_reported_generically
            stripWorkDir w s) octocat (lit "ghp_0123456789abcdef")
            unavailable eq_refl eq_refl eq_refl
            (or_introl (conj eq_refl eq_refl)) _))).
  discriminate.
Defined.

(** *** What is shown of the token *)

(** The redaction keeps the first four code units whatever the length of
    the token: a token of four code units is its own redacted prefix. *)
Lemma short_token_logged_in_full :
  let tok := lit "ghp_" in
  let w := world0 (Resolves (response0 200)) (Resolves tt) false
             (Resolves demo_url) in
  let s := state0 (Some (connected octocat tok)) (lit "demo") [] in
  trim tok = tok /\
  In (ConsoleLog (lit "Using GitHub token format:")
        (PObject [(lit "tokenPrefix", LStr (lit "ghp_..."));
                  (lit "authHeader", LStr (lit "token ghp_..."))]))
     (events_of (fetchRecentRepos w tok) s) /\
  existsb (fun e => existsb (includes tok) (shown_strings e))
    (events_of (fetchRecentRepos w tok) s) = true.
Proof.
  vm_compute. repeat split. left. reflexivity.
Qed.



Ltac settle_trace :=
  simpl; repeat rewrite <- app_assoc; rewrite ?skipn_length_app; reflexivity.





(** *** Blank tokens in the sibling paths *)

(** [fetchRecentRepos] refuses a token that is empty once trimmed, without
    any remote call. *)
Lemma fetch_refuses_blank_token (w : World) (tk : jsstring) (s : State) :
  trim tk = [] ->
  events_of (fetchRecentRepos w tk) s
  = [LogStoreError (lit "No GitHub token available") PNone;
     ToastError (lit "GitHub authentication required")].
Proof.
  intros Hb. unfold events_of, fetchRecentRepos.
  rewrite fetch_guard, Hb. unfold call, bind. settle_trace.
Qed.

(** The mount effect does not even call it for such a token. *)
Lemma onOpen_skips_blank_token (w : World) (s : State)
  (u : GitHubUserResponse) (tk : jsstring) :
  github_connection s = Some (connected u tk) ->
  trim tk = [] ->
  events_of (onOpen w) s = [].
Proof.
  intros Hc Hb. unfold events_of, onOpen, call, bind, getLocalStorage.
  rewrite Hc. simpl. rewrite Hb.
  destruct (truthy tk); simpl; rewrite <- (app_nil_r (trace s)) at 2;
    apply skipn_length_app.
Qed.

Lemma manifest_is_nonbinary_files_witness :
  let fs := [(lit "/home/project/src", Some Folder);
             (lit "/home/project/src/a.ts", Some (File (lit "x") false));
             (lit "/home/project/logo.png", Some (File [] true))] in
  List.length (filesList stripWorkDir fs) = 2 - 1 /\
  (In (lit "/home/project/logo.png", Some (File [] true))
      (filter isPushedEntry fs) <-> true = false).
Proof.
  intros fs.
  pose proof (manifest_is_nonbinary_files stripWorkDir fs) as H.
  split.
  - exact (proj1 (proj2 (proj2 (proj2 (proj2 (proj2 H)))))).
  - exact (proj1 (proj2 (proj2 (proj2 H))) _ _ _
             (or_intror (or_intror (or_introl eq_refl)))).
Defined.

(** ** The recent repositories *)

Ltac enter_fetch Ht :=
  unfold events_of, fetchRecentRepos; rewrite fetch_guard, Ht;
  unfold call, try_finally, try_catch, bind; simpl.

(** A token that is empty once trimmed is refused before anything is
    sent: the refusal is logged and shown, and the stored connection and
    every hook are left as they were. *)
Theorem fetch_blank_token_refused (w : World) (tk : jsstring) (s : State) :
  trim tk = [] ->
  let final := snd (fetchRecentRepos w tk s) in
  let evs := events_of (fetchRecentRepos w tk) s in
  fst (fetchRecentRepos w tk s) = Normal tt /\
  evs = [LogStoreError (lit "No GitHub token available") PNone;
         ToastError (lit "GitHub authentication required")] /\
  existsb isRemoteCall evs = false /\
  hooks final = hooks s /\
  github_connection final = github_connection s.
Proof.
  intros Hb final evs. subst final evs.
  unfold events_of, fetchRecentRepos. rewrite fetch_guard, Hb.
  unfold call, bind. simpl.
  repeat rewrite <- app_assoc. rewrite skipn_length_app. repeat split.
Qed.

Lemma fetch_blank_token_refused_witness :
  let w := world0 (Resolves (response0 200)) (Resolves tt) true
             (Resolves demo_url) in
  let s := state0 None (lit "demo") [] in
  existsb isRemoteCall (events_of (fetchRecentRepos w (lit "  ")) s) = false.
Proof.
  intros w s.
  exact (proj1 (proj2 (proj2
           (fetch_blank_token_refused w (lit "  ") s eq_refl)))).
Defined.

(** A successful answer is stored as the recent repositories: one request
    is sent, with the trimmed token in its header; nothing is reported as
    an error; the spinner is off again; the stored connection and the user
    are untouched. *)
Theorem fetch_success_stores_repos (w : World) (tk : jsstring) (s : State)
  (r : Response) (j : Json) :
  truthy (trim tk) = true ->
  fetch w repos_url accept (lit "token " ++ trim tk) = Resolves r ->
  ok r = true ->
  json r = JsonValue j ->
  let final := snd (fetchRecentRepos w tk s) in
  let evs := events_of (fetchRecentRepos w tk) s in
  fst (fetchRecentRepos w tk s) = Normal tt /\
  recentRepos (hooks final) = j /\
  isFetchingRepos (hooks final) = false /\
  filter isRemoteCall evs = [reposRequest tk] /\
  existsb isErrorReport evs = false /\
  github_connection final = github_connection s /\
  userState (hooks final) = userState (hooks s).
Proof.
  intros Ht Hf Hok Hj final evs. subst final evs.
  enter_fetch Ht. simpl in Hf. rewrite Hf. simpl. rewrite Hok, Hj. simpl.
  repeat rewrite <- app_assoc. rewrite skipn_length_app. repeat split.
Qed.

Lemma fetch_success_stores_repos_witness :
  let w := world0 (Resolves (response0 200)) (Resolves tt) true
             (Resolves demo_url) in
  let s := state0 None (lit "demo") [] in
  recentRepos
    (hooks (snd (fetchRecentRepos w (lit " ghp_0123456789abcdef ") s)))
  = JEmptyObject.
Proof.
  intros w s.
  exact (proj1 (proj2
           (fetch_success_stores_repos w (lit " ghp_0123456789abcdef ") s
              (response0 200) JEmptyObject
              eq_refl eq_refl eq_refl eq_refl))).
Defined.

(** A 401 answer signs the user out: the stored connection is removed, the
    user cell is cleared when a connection was stored, the only message is
    that the token expired, and unless the success dialog is up the
    component now renders the request to connect. The recent repositories
    are left as they were. *)
Theorem fetch_401_signs_out (w : World) (tk : jsstring) (s : State)
  (r : Response) (c : Connection) :
  truthy (trim tk) = true ->
  fetch w repos_url accept (lit "token " ++ trim tk) = Resolves r ->
  resp_status r = 401%Z ->
  github_connection s = Some c ->
  let final := snd (fetchRecentRepos w tk s) in
  let evs := events_of (fetchRecentRepos w tk) s in
  fst (fetchRecentRepos w tk s) = Normal tt /\
  github_connection final = None /\
  userState (hooks final) = None /\
  user_messages evs = [token_expired] /\
  In (LocalStorageRemoveItem (lit "github_connection")) evs /\
  recentRepos (hooks final) = recentRepos (hooks s) /\
  isFetchingRepos (hooks final) = false /\
  (showSuccessDialog (hooks s) = false ->
   view (hooks final) = ConnectionRequiredView).
Proof.
  intros Ht Hf Hs Hc final evs. subst final evs.
  enter_fetch Ht. simpl in Hf. rewrite Hf. simpl.
  unfold ok. rewrite Hs. simpl. unfold getLocalStorage, bind. simpl.
  rewrite Hc. simpl.
  repeat rewrite <- app_assoc. rewrite skipn_length_app.
  repeat split.
  - simpl. auto 10.
  - intros Hd. unfold view. simpl. rewrite Hd. reflexivity.
Qed.

Lemma fetch_401_signs_out_witness :
  let w := world0 (Resolves (response0 401)) (Resolves tt) true
             (Resolves demo_url) in
  let s := state0 (Some (connected octocat (lit "ghp_0123456789abcdef")))
             (lit "demo") [] in
  view (hooks (snd (fetchRecentRepos w (lit "ghp_0123456789abcdef") s)))
  = ConnectionRequiredView.
Proof.
  intros w s.
  exact (proj2 (proj2 (proj2 (proj2 (proj2 (proj2 (proj2
           (fetch_401_signs_out w (lit "ghp_0123456789abcdef") s
              (response0 401) (connected octocat (lit "ghp_0123456789abcdef"))
              eq_refl eq_refl eq_refl eq_refl))))))) eq_refl).
Defined.

(** Any other unsuccessful status keeps the user signed in: the stored
    connection, the user and the recent repositories are left alone, and
    the message shown ends with the status text of the answer. *)
Theorem fetch_other_status_keeps_connection (w : World) (tk : jsstring)
  (s : State) (r : Response) :
  truthy (trim tk) = true ->
  fetch w repos_url accept (lit "token " ++ trim tk) = Resolves r ->
  ok r = false ->
  resp_status r <> 401%Z ->
  let final := snd (fetchRecentRepos w tk s) in
  let evs := events_of (fetchRecentRepos w tk) s in
  fst (fetchRecentRepos w tk s) = Normal tt /\
  github_connection final = github_connection s /\
  userState (hooks final) = userState (hooks s) /\
  recentRepos (hooks final) = recentRepos (hooks s) /\
  isFetchingRepos (hooks final) = false /\
  user_messages evs = [lit "Failed to fetch repositories: " ++ statusText r] /\
  existsb (fun e => match e with
                    | LocalStorageRemoveItem _ => true
                    | _ => false
                    end) evs = false.
Proof.
  intros Ht Hf Hok Hs final evs. subst final evs.
  enter_fetch Ht. simpl in Hf. rewrite Hf. simpl. rewrite Hok. simpl.
  destruct (Z.eqb_spec (resp_status r) 401) as [E | _]; [contradiction |].
  simpl. repeat rewrite <- app_assoc. rewrite skipn_length_app.
  repeat split.
Qed.

Lemma fetch_other_status_keeps_connection_witness :
  let w := world0 (Resolves (response0 503)) (Resolves tt) true
             (Resolves demo_url) in
  let s := state0 (Some (connected octocat (lit "ghp_0123456789abcdef")))
             (lit "demo") [] in
  github_connection (snd (fetchRecentRepos w (lit "ghp_0123456789abcdef") s))
  = Some (connected octocat (lit "ghp_0123456789abcdef")).
Proof.
  intros w s.
  refine (proj1 (proj2
           (fetch_other_status_keeps_connection w
              (lit "ghp_0123456789abcdef") s (response0 503)
              eq_refl eq_refl eq_refl _))).
  discriminate.
Defined.

(** A request that fails to go through, or a successful answer whose body
    cannot be read, is caught: the error is logged, the user is told that
    the recent repositories could not be fetched, and the stored
    connection, the user and the recent repositories stay as they were. *)
Theorem fetch_failure_caught (w : World) (tk : jsstring) (s : State)
  (e : Thrown) :
  truthy (trim tk) = true ->
  fetch w repos_url accept (lit "token " ++ trim tk) = Rejects e \/
  (exists r, fetch w repos_url accept (lit "token " ++ trim tk) = Resolves r /\
             ok r = true /\ json r = JsonRejects e) ->
  let final := snd (fetchRecentRepos w tk s) in
  let evs := events_of (fetchRecentRepos w tk) s in
  fst (fetchRecentRepos w tk s) = Normal tt /\
  filter isErrorReport evs
  = [LogStoreError (lit "Failed to fetch GitHub repositories")
       (PObject [(lit "error", LErr e)]);
     ToastError (lit "Failed to fetch recent repositories")] /\
  github_connection final = github_connection s /\
  userState (hooks final) = userState (hooks s) /\
  recentRepos (hooks final) = recentRepos (hooks s) /\
  isFetchingRepos (hooks final) = false.
Proof.
  intros Ht H final evs. subst final evs.
  destruct H as [Hf | (r & Hf & Hok & Hj)]; enter_fetch Ht; simpl in Hf;
    rewrite Hf; simpl.
  - repeat rewrite <- app_assoc. rewrite skipn_length_app. repeat split.
  - rewrite Hok, Hj. simpl.
    repeat rewrite <- app_assoc. rewrite skipn_length_app. repeat split.
Qed.

Lemma fetch_failure_caught_witness :
  let offline :=
    {| instanceofError := true; status := None;
       message := lit "Failed to fetch" |} in
  let w := world0 (Rejects offline) (Resolves tt) true (Resolves demo_url) in
  let s := state0 (Some (connected octocat (lit "ghp_0123456789abcdef")))
             (lit "demo") [] in
  fst (fetchRecentRepos w (lit "ghp_0123456789abcdef") s) = Normal tt.
Proof.
  intros offline w s.
  exact (proj1 (fetch_failure_caught w (lit "ghp_0123456789abcdef") s
                  offline eq_refl (or_introl eq_refl))).
Defined.

Lemma truthy_false_nil (x : jsstring) : truthy x = false -> x = [].
Proof. destruct x; [reflexivity | discriminate]. Qed.

(** Whatever the answer, [fetchRecentRepos] does not throw; the only thing
    it ever sends is the one request for the recent repositories, with the
    trimmed token; it switches the spinner off whenever it switched it on;
    and it removes the stored connection in one case only, a 401 answer. *)
Theorem fetch_settles (w : World) (tk : jsstring) (s : State) :
  let final := snd (fetchRecentRepos w tk s) in
  let evs := events_of (fetchRecentRepos w tk) s in
  fst (fetchRecentRepos w tk s) = Normal tt /\
  files final = files s /\
  (filter isRemoteCall evs = [] /\ trim tk = [] \/
   filter isRemoteCall evs = [reposRequest tk] /\
   isFetchingRepos (hooks final) = false) /\
  (github_connection final = github_connection s \/
   github_connection final = None /\
   exists r, fetch w repos_url accept (lit "token " ++ trim tk) = Resolves r /\
             resp_status r = 401%Z) /\
  repoName (hooks final) = repoName (hooks s) /\
  showSuccessDialog (hooks final) = showSuccessDialog (hooks s) /\
  pushedFiles (hooks final) = pushedFiles (hooks s).
Proof.
  intros final evs. subst final evs.
  destruct (truthy (trim tk)) eqn:Ht.
  - unfold events_of, fetchRecentRepos, reposRequest. rewrite fetch_guard, Ht.
    destruct (fetch w repos_url accept (lit "token " ++ trim tk))
      as [r | e] eqn:Hf.
    + unfold call, try_finally, try_catch, bind. simpl. unfold ok.
      destruct ((200 <=? resp_status r)%Z && (resp_status r <=? 299)%Z)%bool;
        simpl.
      * destruct (json r); simpl; repeat rewrite <- app_assoc;
          rewrite skipn_length_app; repeat split; auto.
      * unfold getLocalStorage, bind.
        destruct (Z.eqb_spec (resp_status r) 401) as [E | _]; simpl.
        -- destruct (github_connection s); simpl;
             repeat rewrite <- app_assoc; rewrite skipn_length_app;
             repeat split; eauto.
        -- repeat rewrite <- app_assoc; rewrite skipn_length_app;
             repeat split; auto.
    + unfold call, try_finally, try_catch, bind. simpl.
      repeat rewrite <- app_assoc; rewrite skipn_length_app;
        repeat split; auto.
  - apply truthy_false_nil in Ht.
    unfold events_of, fetchRecentRepos. rewrite fetch_guard, Ht.
    unfold call, bind. simpl.
    repeat rewrite <- app_assoc. rewrite skipn_length_app.
    repeat split; auto.
Qed.

(** After a 401 on the recent repositories, a submission is stopped at the
    first guard: the user is asked to connect and nothing is sent. *)
Theorem submit_after_fetch_401_blocked
  (extractRelativePath : jsstring -> jsstring) (w : World) (tk : jsstring)
  (s : State) (r : Response) :
  truthy (trim tk) = true ->
  fetch w repos_url accept (lit "token " ++ trim tk) = Resolves r ->
  resp_status r = 401%Z ->
  let s' := snd (fetchRecentRepos w tk s) in
  let evs := events_of (handleSubmit extractRelativePath w) s' in
  evs = [ToastError connect_first] /\
  existsb isRemoteCall evs = false /\
  outcome evs (hooks (snd (handleSubmit extractRelativePath w s')))
  = Blocked NoCredential.
Proof.
  intros Ht Hf Hs s' evs.
  assert (Hgone : github_connection s' = None).
  { subst s'. enter_fetch Ht. simpl in Hf. rewrite Hf. simpl.
    unfold ok. rewrite Hs. simpl. unfold getLocalStorage, bind. simpl.
    destruct (github_connection s); simpl; auto. }
  assert (E : handleSubmit extractRelativePath w s'
              = (Normal tt, toasted s' connect_first)).
  { apply submit_no_credential. left. rewrite Hgone. reflexivity. }
  subst evs. rewrite (events_of_toasted _ _ _ _ E). repeat split.
Qed.

Lemma submit_after_fetch_401_blocked_witness :
  let w := world0 (Resolves (response0 401)) (Resolves tt) true
             (Resolves demo_url) in
  let s := state0 (Some (connected octocat (lit "ghp_0123456789abcdef")))
             (lit "demo") [] in
  events_of (handleSubmit stripWorkDir w)
    (snd (fetchRecentRepos w (lit "ghp_0123456789abcdef") s))
  = [ToastError connect_first].
Proof.
  intros w s.
  exact (proj1 (submit_after_fetch_401_blocked stripWorkDir w
                  (lit "ghp_0123456789abcdef") s (response0 401)
                  eq_refl eq_refl eq_refl)).
Defined.

(** ** Opening the dialog *)

Lemma call_call (m : M unit) (s : State) : call (call m) s = call m s.
Proof.
  unfold call. destruct (m s) as [[[] | | e] s']; reflexivity.
Qed.

(** Opened with no stored connection, with no user in it, or with a
    missing or empty token, the dialog does nothing at all: nothing is
    sent or shown and the state is as before; in particular a user left
    from an earlier opening stays. *)
Theorem onOpen_without_connection_idle (w : World) (s : State) :
  user_of (github_connection s) = None \/
  opt_truthy (token_of (github_connection s)) = false ->
  onOpen w s = (Normal tt, s).
Proof.
  intros H. unfold onOpen, call, bind, getLocalStorage.
  destruct (user_of (github_connection s)) as [u |];
    destruct (token_of (github_connection s)) as [t |]; simpl in *;
    try reflexivity.
  - destruct H as [H | H]; [discriminate |]. rewrite H. reflexivity.
Qed.

Lemma onOpen_without_connection_idle_witness :
  let w := world0 (Resolves (response0 200)) (Resolves tt) true
             (Resolves demo_url) in
  let s := state0 (Some {| user := Some octocat; token := Some [] |})
             (lit "demo") [] in
  onOpen w s = (Normal tt, s).
Proof.
  intros w s.
  exact (onOpen_without_connection_idle w s (or_intror eq_refl)).
Defined.

(** Opened with a stored user and a token that is not empty, the dialog
    takes the stored user; it then fetches the recent repositories with the
    stored token, unless the token is white space only, in which case
    nothing is sent and the form is shown. *)
Theorem onOpen_with_connection (w : World) (s : State)
  (u : GitHubUserResponse) (t : jsstring) :
  github_connection s = Some (connected u t) ->
  truthy t = true ->
  let shown_user := snd (setUser (Some u) s) in
  (truthy (trim t) = true ->
   onOpen w s = fetchRecentRepos w t shown_user) /\
  (truthy (trim t) = false ->
   onOpen w s = (Normal tt, shown_user) /\
   events_of (onOpen w) s = [] /\
   (showSuccessDialog (hooks s) = false ->
    view (hooks (snd (onOpen w s))) = FormView)).
Proof.
  intros Hc Ht shown_user. subst shown_user.
  assert (E : onOpen w s
              = call (when (truthy (trim t)) (fetchRecentRepos w t))
                  (snd (setUser (Some u) s))).
  { unfold onOpen, call at 1, bind at 1, getLocalStorage. rewrite Hc. simpl.
    rewrite Ht. reflexivity. }
  split; intros Hb; rewrite E, Hb.
  - unfold when, fetchRecentRepos. apply call_call.
  - split; [reflexivity |]. split.
    + unfold events_of. rewrite E, Hb. simpl.
      rewrite <- (app_nil_r (trace s)) at 2. apply skipn_length_app.
    + intros Hd. unfold view. simpl. rewrite Hd. reflexivity.
Qed.

Lemma onOpen_with_connection_witness :
  let w := world0 (Resolves (response0 200)) (Resolves tt) true
             (Resolves demo_url) in
  let s := state0 (Some (connected octocat (lit "   "))) (lit "demo") [] in
  events_of (onOpen w) s = [].
Proof.
  intros w s.
  exact (proj1 (proj2 (proj2
           (onOpen_with_connection w s octocat (lit "   ")
              eq_refl eq_refl) eq_refl))).
Defined.

(** ** More on submissions *)

Lemma trimStart_truthy (x : jsstring) :
  truthy (trimStart x) = negb (forallb isWhiteSpace x).
Proof.
  induction x as [| c r IH]; simpl; [reflexivity |].
  destruct (isWhiteSpace c); simpl; [exact IH | reflexivity].
Qed.

Lemma trimStart_keeps_blankness (x : jsstring) :
  forallb isWhiteSpace (trimStart x) = forallb isWhiteSpace x.
Proof.
  induction x as [| c r IH]; simpl; [reflexivity |].
  destruct (isWhiteSpace c) eqn:E; simpl; [exact IH |].
  rewrite E. reflexivity.
Qed.

Lemma forallb_rev (A : Type) (f : A -> bool) (l : list A) :
  forallb f (rev l) = forallb f l.
Proof.
  induction l as [| a l IH]; simpl; [reflexivity |].
  rewrite forallb_app, IH. simpl. rewrite andb_true_r. apply andb_comm.
Qed.

Lemma truthy_rev (x : jsstring) : truthy (rev x) = truthy x.
Proof.
  destruct x as [| c r]; simpl; [reflexivity |].
  destruct (rev r); reflexivity.
Qed.

(** A string is empty once trimmed exactly when all of it is white
    space. *)
Lemma trim_truthy (x : jsstring) :
  truthy (trim x) = negb (forallb isWhiteSpace x).
Proof.
  unfold trim, trimEnd.
  rewrite truthy_rev, trimStart_truthy, forallb_rev.
  rewrite trimStart_keeps_blankness. reflexivity.
Qed.

(** The two ways a submission whose guards pass can end: with the hooks as
    they were, or with the result of a push that went through. *)
Lemma submit_cases
  (extractRelativePath : jsstring -> jsstring) (w : World) (s : State)
  (u : GitHubUserResponse) (t : jsstring) :
  github_connection s = Some (connected u t) ->
  truthy t = true ->
  truthy (trim (repoName (hooks s))) = true ->
  let lookup := ReposGet (trim t) (login u) (repoName (hooks s)) in
  let push := OnPush (repoName (hooks s)) (login u) t (isPrivate (hooks s)) in
  (exists evs,
     handleSubmit extractRelativePath w s
     = (Normal tt, finished s (hooks s) evs) /\
     (filter isRemoteCall evs = [lookup] \/
      filter isRemoteCall evs = [lookup; push])) \/
  (exists url evs,
     onPush w (repoName (hooks s)) (login u) t (isPrivate (hooks s))
     = Resolves url /\
     handleSubmit extractRelativePath w s
     = (Normal tt, finished s (published extractRelativePath s url) evs) /\
     filter isRemoteCall evs = [lookup; push]).
Proof.
  intros Hc Ht Hn lookup push.
  assert (Hpush : forall pre,
    passes w s u t pre -> filter isRemoteCall pre = [lookup] ->
    (exists evs,
       handleSubmit extractRelativePath w s
       = (Normal tt, finished s (hooks s) evs) /\
       (filter isRemoteCall evs = [lookup] \/
        filter isRemoteCall evs = [lookup; push])) \/
    (exists url evs,
       onPush w (repoName (hooks s)) (login u) t (isPrivate (hooks s))
       = Resolves url /\
       handleSubmit extractRelativePath w s
       = (Normal tt, finished s (published extractRelativePath s url) evs) /\
       filter isRemoteCall evs = [lookup; push])).
  { intros pre Hpass Hpre.
    destruct (onPush w (repoName (hooks s)) (login u) t
                (isPrivate (hooks s))) as [url | e] eqn:Hp.
    - right. exists url, (pre ++ [push]). split; [reflexivity |].
      split; [exact (submit_pushed extractRelativePath w s u t Hc Ht Hn
                       pre url Hpass Hp) |].
      rewrite filter_app, Hpre. reflexivity.
    - left. eexists. split;
        [exact (submit_push_failed extractRelativePath w s u t Hc Ht Hn
                  pre e Hpass Hp) |].
      right. rewrite filter_app, Hpre. reflexivity. }
  destruct (repos_get w (trim t) (login u) (repoName (hooks s)))
    as [[] | e] eqn:Hr.
  - destruct (window_confirm w (confirm_message (repoName (hooks s))))
      eqn:Hw.
    + apply (Hpush [lookup;
                    WindowConfirm (confirm_message (repoName (hooks s)))]);
        [right; auto | reflexivity].
    + left. eexists. split;
        [exact (submit_declined extractRelativePath w s u t Hc Ht Hn Hr Hw) |].
      left. reflexivity.
  - destruct (rethrown e) eqn:He.
    + left. eexists. split;
        [exact (submit_lookup_rethrown extractRelativePath w s u t Hc Ht Hn
                  e Hr He) |].
      left. reflexivity.
    + apply (Hpush [lookup]); [left; eauto | reflexivity].
Qed.

(** The name guard stops exactly the names made of white space only (the
    empty name among them): for such a name the user is told that a name is
    required, nothing is sent and no hook changes; any other name gets as
    far as the lookup. *)
Theorem name_guard_blocks_blank_names
  (extractRelativePath : jsstring -> jsstring) (w : World) (s : State)
  (u : GitHubUserResponse) (t : jsstring) :
  github_connection s = Some (connected u t) ->
  truthy t = true ->
  let evs := events_of (handleSubmit extractRelativePath w) s in
  let final := snd (handleSubmit extractRelativePath w s) in
  (forallb isWhiteSpace (repoName (hooks s)) = true ->
   evs = [ToastError name_required] /\
   hooks final = hooks s /\
   outcome evs (hooks final) = Blocked EmptyRepositoryName) /\
  (forallb isWhiteSpace (repoName (hooks s)) = false ->
   exists rest,
     evs = ReposGet (trim t) (login u) (repoName (hooks s)) :: rest).
Proof.
  intros Hc Ht evs final. subst evs final. split; intros Hblank.
  - assert (Hn : truthy (trim (repoName (hooks s))) = false)
      by (rewrite trim_truthy, Hblank; reflexivity).
    pose proof (submit_no_name extractRelativePath w s u t Hc Ht Hn) as E.
    rewrite (events_of_toasted _ _ _ _ E), E. repeat split.
  - assert (Hn : truthy (trim (repoName (hooks s))) = true)
      by (rewrite trim_truthy, Hblank; reflexivity).
    destruct (submit_paths extractRelativePath w s u t Hc Ht Hn)
      as (h & evs & E & Hcases).
    rewrite (events_of_eq _ _ _ _ _ E).
    destruct Hcases as
      [(_ & _ & ->) | [(e & _ & _ & ->) | (pre & Hpass & Hpush)]];
      try (eexists; reflexivity).
    destruct Hpass as [(e & _ & _ & ->) | (_ & _ & ->)];
      destruct Hpush as [(url & _ & ->) | (e' & _ & ->)];
      eexists; reflexivity.
Qed.

Lemma name_guard_blocks_blank_names_witness :
  let w := world0 (Resolves (response0 200)) (Resolves tt) true
             (Resolves demo_url) in
  let s := state0 (Some (connected octocat (lit "ghp_0123456789abcdef")))
             [32; 9; 160; 8195]%N [] in
  events_of (handleSubmit stripWorkDir w) s = [ToastError name_required].
Proof.
  intros w s.
  exact (proj1 (proj1
           (name_guard_blocks_blank_names stripWorkDir w s octocat
              (lit "ghp_0123456789abcdef") eq_refl eq_refl) eq_refl)).
Defined.

(** A submission is either stopped by a guard or has a stored user, a
    token that is not empty, and a name that is not blank. *)
Lemma submit_guarded
  (extractRelativePath : jsstring -> jsstring) (w : World) (s : State) :
  (exists msg,
     handleSubmit extractRelativePath w s = (Normal tt, toasted s msg)) \/
  (exists u t,
     github_connection s = Some (connected u t) /\
     truthy t = true /\
     truthy (trim (repoName (hooks s))) = true).
Proof.
  destruct (opt_truthy (token_of (github_connection s))) eqn:Htok.
  - destruct (user_of (github_connection s)) as [u |] eqn:Hu.
    + destruct (github_connection s) as [[[u' |] [t |]] |] eqn:Hc;
        simpl in Htok, Hu; try discriminate.
      injection Hu as ->.
      destruct (truthy (trim (repoName (hooks s)))) eqn:Hn.
      * right. exists u, t. auto.
      * left. eexists.
        exact (submit_no_name extractRelativePath w s u t Hc Htok Hn).
    + left. eexists.
      exact (submit_no_credential extractRelativePath w s (or_intror Hu)).
  - left. eexists.
    exact (submit_no_credential extractRelativePath w s (or_introl Htok)).
Qed.


(** What a submission sends: nothing, or the lookup alone, or the lookup
    followed by one push. The lookup goes to the stored login and the name
    as typed, authenticated with the trimmed token; the push gets the same
    login and name, the token as stored, and the privacy choice. *)
Theorem submit_remote_calls
  (extractRelativePath : jsstring -> jsstring) (w : World) (s : State) :
  let sent :=
    filter isRemoteCall (events_of (handleSubmit extractRelativePath w) s) in
  sent = [] \/
  exists u t,
    github_connection s = Some (connected u t) /\
    let lookup := ReposGet (trim t) (login u) (repoName (hooks s)) in
    let push :=
      OnPush (repoName (hooks s)) (login u) t (isPrivate (hooks s)) in
    (sent = [lookup] \/ sent = [lookup; push]).
Proof.
  intros sent. subst sent.
  destruct (submit_guarded extractRelativePath w s)
    as [[msg E] | (u & t & Hc & Ht & Hn)].
  - left. rewrite (events_of_toasted _ _ _ _ E). reflexivity.
  - right. exists u, t. split; [exact Hc |].
    destruct (submit_cases extractRelativePath w s u t Hc Ht Hn)
      as [(evs & E & H) | (url & evs & _ & E & H)];
      rewrite (events_of_eq _ _ _ _ _ E); auto.
Qed.

Lemma startsWith_app (n b : jsstring) : startsWith n (n ++ b) = true.
Proof.
  induction n as [| c n IH]; simpl; [reflexivity |].
  rewrite N.eqb_refl. exact IH.
Qed.

Lemma includes_app (n a b : jsstring) : includes n (a ++ n ++ b) = true.
Proof.
  induction a as [| c a IH]; simpl.
  - destruct (n ++ b) eqn:E; simpl; rewrite <- E, startsWith_app; reflexivity.
  - rewrite IH. apply orb_true_r.
Qed.

(** The question about updating is put exactly when the lookup found the
    repository, and it names the repository as typed, between quotes. *)
Theorem confirm_asked_iff_found
  (extractRelativePath : jsstring -> jsstring) (w : World) (s : State)
  (u : GitHubUserResponse) (t : jsstring) :
  github_connection s = Some (connected u t) ->
  truthy t = true ->
  truthy (trim (repoName (hooks s))) = true ->
  let evs := events_of (handleSubmit extractRelativePath w) s in
  (existsb isWindowConfirm evs = true <->
   repos_get w (trim t) (login u) (repoName (hooks s)) = Resolves tt) /\
  (forall msg,
     In (WindowConfirm msg) evs ->
     msg = confirm_message (repoName (hooks s)) /\
     includes ([34%N] ++ repoName (hooks s) ++ [34%N]) msg = true).
Proof.
  intros Hc Ht Hn evs. subst evs.
  assert (Hinc : includes ([34%N] ++ repoName (hooks s) ++ [34%N])
                   (confirm_message (repoName (hooks s))) = true).
  { unfold confirm_message.
    replace ([34%N] ++ repoName (hooks s) ++ [34%N] ++
             lit " already exists. Do you want to update it? This will add or modify files in the repository.")
      with (([34%N] ++ repoName (hooks s) ++ [34%N]) ++
            lit " already exists. Do you want to update it? This will add or modify files in the repository.")
      by (rewrite <- !app_assoc; reflexivity).
    apply includes_app. }
  destruct (submit_paths extractRelativePath w s u t Hc Ht Hn)
    as (h & evs & E & Hcases).
  rewrite (events_of_eq _ _ _ _ _ E).
  destruct Hcases as
    [(Hr & Hw & ->) | [(e & Hr & He & ->) | (pre & Hpass & Hpush)]].
  - split; [split; auto |].
    intros msg H. in_cases H. inversion H; subst. auto.
  - split; [split; [discriminate | congruence] |].
    intros msg H. in_cases H.
  - destruct Hpass as [(e & Hr & He & ->) | (Hr & Hw & ->)];
      destruct Hpush as [(url & Hp & ->) | (e' & Hp & ->)];
      (split;
       [ split; [try discriminate; auto | try congruence; auto]
       | intros msg H; in_cases H; try (inversion H; subst; auto) ]).
Qed.

Lemma confirm_asked_iff_found_witness :
  let w := world0 (Resolves (response0 200)) (Resolves tt) true
             (Resolves demo_url) in
  let s := state0 (Some (connected octocat (lit "ghp_0123456789abcdef")))
             (lit "demo") [] in
  existsb isWindowConfirm (events_of (handleSubmit stripWorkDir w) s) = true.
Proof.
  intros w s.
  exact (proj2 (proj1
           (confirm_asked_iff_found stripWorkDir w s octocat
              (lit "ghp_0123456789abcdef") eq_refl eq_refl eq_refl))
           eq_refl).
Defined.

(** ** Sizes in the file list *)

Lemma utf8_width_le_4 (cp : N) : utf8_width cp <= 4.
Proof.
  unfold utf8_width.
  destruct (N.ltb cp 128); [lia |].
  destruct (N.ltb cp 2048); [lia |].
  destruct (N.ltb cp 65536); lia.
Qed.

Lemma utf8_width_le_3 (cp : N) : (cp < 65536)%N -> utf8_width cp <= 3.
Proof.
  intros H. unfold utf8_width.
  destruct (N.ltb cp 128); [lia |].
  destruct (N.ltb cp 2048); [lia |].
  destruct (N.ltb_spec cp 65536); lia.
Qed.

Lemma utf8_width_pair (c d : N) :
  utf8_width (65536 + (c - 55296) * 1024 + (d - 56320)) = 4.
Proof.
  unfold utf8_width.
  destruct (N.ltb_spec (65536 + (c - 55296) * 1024 + (d - 56320)) 128);
    [lia |].
  destruct (N.ltb_spec (65536 + (c - 55296) * 1024 + (d - 56320)) 2048);
    [lia |].
  destruct (N.ltb_spec (65536 + (c - 55296) * 1024 + (d - 56320)) 65536);
    [lia | reflexivity].
Qed.

Lemma list_sum_step (a : nat) (l : list nat) :
  list_sum (a :: l) = a + list_sum l.
Proof. reflexivity. Qed.

(** The encoding has at least one byte and at most three bytes per code
    unit of the string. *)
Lemma utf8_byte_length_bounds (n : nat) (x : jsstring) :
  List.length x <= n ->
  List.length x <= utf8_byte_length x /\
  (Forall (fun c => (c < 65536)%N) x ->
   utf8_byte_length x <= 3 * List.length x).
Proof.
  unfold utf8_byte_length. revert x.
  induction n as [| n IH]; intros x Hlen.
  - destruct x; [simpl; split; auto | simpl in Hlen; lia].
  - destruct x as [| c r]; [simpl; split; auto |].
    simpl in Hlen.
    assert (Hr : List.length r <= n) by lia.
    destruct (IH r Hr) as [Lr Ur].
    cbn [scalars].
    destruct (isHighSurrogate c).
    + destruct r as [| d r'].
      * cbn [map]. change (utf8_width replacement) with 3.
        change (list_sum [3]) with 3. cbn [List.length].
        split; [lia |]. intros _. lia.
      * destruct (isLowSurrogate d).
        -- assert (Hr' : List.length r' <= n) by (simpl in Hr; lia).
           destruct (IH r' Hr') as [Lr' Ur'].
           cbn [map]. rewrite utf8_width_pair.
           rewrite list_sum_step; cbn [List.length]. split; [lia |].
           intros HF. inversion HF as [| ? ? _ HF']; subst.
           inversion HF' as [| ? ? _ HF'']; subst.
           specialize (Ur' HF''). lia.
        -- cbn [map]. change (utf8_width replacement) with 3.
           rewrite list_sum_step; cbn [List.length] in *. split; [lia |].
           intros HF. inversion HF as [| ? ? _ HF']; subst.
           specialize (Ur HF'). lia.
    + destruct (isLowSurrogate c).
      * cbn [map]. change (utf8_width replacement) with 3.
        rewrite list_sum_step; cbn [List.length]. split; [lia |].
        intros HF. inversion HF as [| ? ? _ HF']; subst.
        specialize (Ur HF'). lia.
      * cbn [map]. rewrite list_sum_step; cbn [List.length].
        pose proof (utf8_width_pos c). split; [lia |].
        intros HF. inversion HF as [| ? ? Hc HF']; subst.
        specialize (Ur HF'). pose proof (utf8_width_le_3 c Hc). lia.
Qed.

Lemma scalars_ascii (x : jsstring) :
  forallb (fun c => N.ltb c 128) x = true -> scalars x = x.
Proof.
  induction x as [| c r IH]; simpl; [reflexivity |].
  intros H. apply andb_true_iff in H. destruct H as [Hc Hr].
  apply N.ltb_lt in Hc.
  unfold isHighSurrogate, isLowSurrogate.
  destruct (N.leb_spec 55296 c); [lia |].
  destruct (N.leb_spec 56320 c); [lia |].
  simpl. rewrite (IH Hr). reflexivity.
Qed.

Lemma utf8_byte_length_ascii (x : jsstring) :
  forallb (fun c => N.ltb c 128) x = true ->
  utf8_byte_length x = List.length x.
Proof.
  intros H. unfold utf8_byte_length. rewrite (scalars_ascii x H).
  induction x as [| c r IH]; simpl; [reflexivity |].
  simpl in H. apply andb_true_iff in H. destruct H as [Hc Hr].
  unfold utf8_width at 1. rewrite Hc. rewrite (IH Hr). reflexivity.
Qed.

(** For every entry of the file list the size is at least the length of
    the content in code units, and, the code units being 16 bits wide, at
    most three times that length; a content of ASCII characters only has
    exactly its length as size, and an empty content has size 0. *)
Theorem manifest_size_bounds
  (extractRelativePath : jsstring -> jsstring) (fs : FileMap) :
  Forall (fun e => Forall (fun c => (c < 65536)%N) (contentOf (snd e))) fs ->
  Forall2
    (fun e f =>
       let content := contentOf (snd e) in
       List.length content <= size f <= 3 * List.length content /\
       (forallb (fun c => N.ltb c 128) content = true ->
        size f = List.length content) /\
       (content = [] -> size f = 0))
    (filter isPushedEntry fs) (filesList extractRelativePath fs).
Proof.
  intros Hwf. unfold filesList.
  assert (Hsel : Forall (fun e => Forall (fun c => (c < 65536)%N)
                                    (contentOf (snd e)))
                   (filter isPushedEntry fs)).
  { rewrite Forall_forall in *. intros e He.
    apply filter_In in He. apply Hwf. tauto. }
  induction (filter isPushedEntry fs) as [| e l IH]; cbn [map];
    constructor.
  - inversion Hsel as [| ? ? He _]; subst.
    rewrite toPushedFile_size, encode_length.
    destruct (utf8_byte_length_bounds _ (contentOf (snd e)) (le_n _))
      as [L U].
    split; [split; [exact L | exact (U He)] |].
    split; [apply utf8_byte_length_ascii |].
    intros ->. reflexivity.
  - apply IH. inversion Hsel; assumption.
Qed.

Lemma manifest_size_bounds_witness :
  let fs := [(lit "/home/project/a.txt",
              Some (File [104; 233; 8364; 55357; 56832]%N false))] in
  Forall2
    (fun e f =>
       let content := contentOf (snd e) in
       List.length content <= size f <= 3 * List.length content /\
       (forallb (fun c => N.ltb c 128) content = true ->
        size f = List.length content) /\
       (content = [] -> size f = 0))
    (filter isPushedEntry fs) (filesList stripWorkDir fs).
Proof.
  intros fs.
  apply (manifest_size_bounds stripWorkDir fs).
  repeat constructor.
Defined.

(** ** What is rendered, and closing *)

(** After a push that went through, the component renders the success
    dialog, with the address [onPush] returned and a file count equal to
    the number of files of the workbench that are not binary. *)
Theorem success_view_after_push
  (extractRelativePath : jsstring -> jsstring) (w : World) (s : State)
  (u : GitHubUserResponse) (t : jsstring) (pre : list Event)
  (url : jsstring) :
  github_connection s = Some (connected u t) ->
  truthy t = true ->
  truthy (trim (repoName (hooks s))) = true ->
  passes w s u t pre ->
  onPush w (repoName (hooks s)) (login u) t (isPrivate (hooks s))
  = Resolves url ->
  let final := snd (handleSubmit extractRelativePath w s) in
  view (hooks final) = SuccessView /\
  createdRepoUrl (hooks final) = url /\
  pushedCount (hooks final) + List.length (filter isBinaryFile (files s))
  = List.length (filter isFileEntry (files s)) /\
  map path (pushedFiles (hooks final))
  = map (fun e => extractRelativePath (fst e))
      (filter isPushedEntry (files s)).
Proof.
  intros Hc Ht Hn Hpass Hp final. subst final.
  rewrite (submit_pushed extractRelativePath w s u t Hc Ht Hn pre url
             Hpass Hp).
  unfold pushedCount, view. simpl. unfold filesList.
  rewrite length_map, map_map.
  repeat split. apply pushed_count.
Qed.

Lemma success_view_after_push_witness :
  let w := world0 (Resolves (response0 200))
             (Rejects (RequestError 404 (lit "Not Found"))) false
             (Resolves demo_url) in
  let s := state0 (Some (connected octocat (lit "ghp_0123456789abcdef")))
             (lit "demo")
             [(lit "/home/project/src", Some Folder);
              (lit "/home/project/src/a.ts", Some (File (lit "x") false));
              (lit "/home/project/logo.png", Some (File [] true))] in
  view (hooks (snd (handleSubmit stripWorkDir w s))) = SuccessView.
Proof.
  intros w s.
  exact (proj1
           (success_view_after_push stripWorkDir w s octocat
              (lit "ghp_0123456789abcdef")
              [ReposGet (lit "ghp_0123456789abcdef") (lit "octocat")
                 (lit "demo")]
              demo_url eq_refl eq_refl eq_refl
              (or_introl
                 (ex_intro _ (RequestError 404 (lit "Not Found"))
                    (conj eq_refl (conj eq_refl eq_refl))))
              eq_refl)).
Defined.

(** Closing empties the name, unticks the privacy box, takes the success
    dialog down and forgets the address, then calls the parent's callback
    once, on that state. The file list of the last push, the user, the
    recent repositories and the loading flag are not reset. Afterwards the
    success dialog is not what is rendered. *)
Theorem handleClose_resets_form (onClose : M unit) (s : State) :
  (forall s', hooks (snd (onClose s')) = hooks s') ->
  let final := snd (handleClose onClose s) in
  handleClose onClose s = call onClose (snd (handleClose (ret tt) s)) /\
  repoName (hooks final) = [] /\
  isPrivate (hooks final) = false /\
  showSuccessDialog (hooks final) = false /\
  createdRepoUrl (hooks final) = [] /\
  pushedFiles (hooks final) = pushedFiles (hooks s) /\
  userState (hooks final) = userState (hooks s) /\
  recentRepos (hooks final) = recentRepos (hooks s) /\
  isLoading (hooks final) = isLoading (hooks s) /\
  view (hooks final)
  = (if defined (userState (hooks s)) then FormView
     else ConnectionRequiredView).
Proof.
  intros Hkeep final. subst final.
  assert (E : handleClose onClose s
              = call onClose (snd (handleClose (ret tt) s)))
    by reflexivity.
  split; [exact E |].
  assert (Hh : hooks (snd (handleClose onClose s))
               = hooks (snd (handleClose (ret tt) s))).
  { rewrite E. unfold call.
    pose proof (Hkeep (snd (handleClose (ret tt) s))) as H.
    destruct (onClose (snd (handleClose (ret tt) s))) as [[[] | | e] s'];
      exact H. }
  unfold view. rewrite Hh. simpl.
  destruct (userState (hooks s)); repeat split.
Qed.

Lemma handleClose_resets_form_witness :
  let s := state0 (Some (connected octocat (lit "ghp_0123456789abcdef")))
             (lit "demo") [] in
  repoName (hooks (snd (handleClose (ret tt) s))) = [].
Proof.
  intros s.
  exact (proj1 (proj2
           (handleClose_resets_form (ret tt) s (fun _ => eq_refl)))).
Defined.

(** Closing and submitting again without typing a name is stopped by the
    name guard: with a connection still stored, the user is told that a
    name is required and nothing is sent. *)
Theorem resubmit_after_close_blocked
  (extractRelativePath : jsstring -> jsstring) (w : World)
  (onClose : M unit) (s : State) (u : GitHubUserResponse) (t : jsstring) :
  (forall s', hooks (snd (onClose s')) = hooks s' /\
              github_connection (snd (onClose s')) = github_connection s') ->
  github_connection s = Some (connected u t) ->
  truthy t = true ->
  let closed := snd (handleClose onClose s) in
  let evs := events_of (handleSubmit extractRelativePath w) closed in
  evs = [ToastError name_required] /\
  existsb isRemoteCall evs = false.
Proof.
  intros Hkeep Hc Ht closed evs.
  assert (Hclosed : hooks closed = hooks (snd (handleClose (ret tt) s)) /\
                    github_connection closed = Some (connected u t)).
  { subst closed.
    change (handleClose onClose s)
      with (call onClose (snd (handleClose (ret tt) s))).
    unfold call.
    destruct (Hkeep (snd (handleClose (ret tt) s))) as [Hh Hg].
    destruct (onClose (snd (handleClose (ret tt) s))) as [[[] | | e] s'];
      simpl in *; rewrite Hh, Hg; auto. }
  destruct Hclosed as [Hh Hg].
  assert (Hn : truthy (trim (repoName (hooks closed))) = false)
    by (rewrite Hh; reflexivity).
  pose proof (submit_no_name extractRelativePath w closed u t Hg Ht Hn) as E.
  subst evs. rewrite (events_of_toasted _ _ _ _ E). split; reflexivity.
Qed.

Lemma resubmit_after_close_blocked_witness :
  let w := world0 (Resolves (response0 200)) (Resolves tt) true
             (Resolves demo_url) in
  let s := state0 (Some (connected octocat (lit "ghp_0123456789abcdef")))
             (lit "demo") [] in
  events_of (handleSubmit stripWorkDir w) (snd (handleClose (ret tt) s))
  = [ToastError name_required].
Proof.
  intros w s.
  exact (proj1
           (resubmit_after_close_blocked stripWorkDir w (ret tt) s octocat
              (lit "ghp_0123456789abcdef")
              (fun _ => conj eq_refl eq_refl) eq_refl eq_refl)).
Defined.

(** ** White space around the token *)

Lemma trimStart_head (x : jsstring) (c : N) (r : jsstring) :
  trimStart x = c :: r -> isWhiteSpace c = false.
Proof.
  induction x as [| a x IH]; simpl; [discriminate |].
  destruct (isWhiteSpace a) eqn:E; [exact IH |].
  intros H. injection H as -> _. exact E.
Qed.

Lemma trimStart_fixed (c : N) (r : jsstring) :
  isWhiteSpace c = false -> trimStart (c :: r) = c :: r.
Proof. intros H. simpl. rewrite H. reflexivity. Qed.

Lemma trimStart_idem (x : jsstring) : trimStart (trimStart x) = trimStart x.
Proof.
  destruct (trimStart x) as [| c r] eqn:E; [reflexivity |].
  apply trimStart_fixed. exact (trimStart_head x c r E).
Qed.

Lemma trimStart_last (l : jsstring) (c : N) :
  isWhiteSpace c = false -> exists l', trimStart (l ++ [c]) = l' ++ [c].
Proof.
  intros Hc. induction l as [| a l IH]; simpl.
  - rewrite Hc. exists []. reflexivity.
  - destruct (isWhiteSpace a); [exact IH |].
    exists (a :: l). reflexivity.
Qed.

Lemma trimEnd_head (c : N) (r : jsstring) :
  isWhiteSpace c = false -> exists r', trimEnd (c :: r) = c :: r'.
Proof.
  intros Hc. unfold trimEnd. simpl.
  destruct (trimStart_last (rev r) c Hc) as [l' ->].
  rewrite rev_app_distr. simpl. eauto.
Qed.

Lemma trimEnd_idem (x : jsstring) : trimEnd (trimEnd x) = trimEnd x.
Proof.
  unfold trimEnd. rewrite rev_involutive, trimStart_idem. reflexivity.
Qed.

(** Trimming twice is trimming once. *)
Lemma trim_idem (x : jsstring) : trim (trim x) = trim x.
Proof.
  unfold trim.
  destruct (trimStart x) as [| c r] eqn:E; [reflexivity |].
  pose proof (trimStart_head x c r E) as Hc.
  destruct (trimEnd_head c r Hc) as [r' Hr'].
  assert (Hfix : trimStart (trimEnd (c :: r)) = trimEnd (c :: r))
    by (rewrite Hr'; apply trimStart_fixed; exact Hc).
  rewrite Hfix. apply trimEnd_idem.
Qed.

(** White space around the token makes no difference to the fetch of the
    recent repositories: it runs exactly as for the trimmed token. (A
    submission, by contrast, hands the token to [onPush] as stored.) *)
Theorem fetch_ignores_surrounding_whitespace (w : World) (tk : jsstring)
  (s : State) :
  fetchRecentRepos w (trim tk) s = fetchRecentRepos w tk s.
Proof.
  unfold fetchRecentRepos. rewrite !fetch_guard, !trim_idem. reflexivity.
Qed.

Lemma onOpen_connected (w : World) (s : State) (u : GitHubUserResponse)
  (t : jsstring) :
  github_connection s = Some (connected u t) ->
  truthy (trim t) = true ->
  onOpen w s = fetchRecentRepos w t (snd (setUser (Some u) s)).
Proof.
  intros Hc Ht.
  unfold onOpen, call at 1, bind at 1, getLocalStorage. rewrite Hc. simpl.
  rewrite (truthy_trim _ Ht). simpl. rewrite Ht. simpl.
  unfold fetchRecentRepos. apply call_call.
Qed.

(** Opening the dialog with a stored connection whose token the service
    answers with 401 signs the user out: the stored connection is removed
    and, the success dialog not being up, the request to connect is what
    is rendered. *)
Theorem onOpen_expired_token_signs_out (w : World) (s : State)
  (u : GitHubUserResponse) (t : jsstring) (r : Response) :
  github_connection s = Some (connected u t) ->
  truthy (trim t) = true ->
  fetch w repos_url accept (lit "token " ++ trim t) = Resolves r ->
  resp_status r = 401%Z ->
  showSuccessDialog (hooks s) = false ->
  let final := snd (onOpen w s) in
  fst (onOpen w s) = Normal tt /\
  github_connection final = None /\
  userState (hooks final) = None /\
  view (hooks final) = ConnectionRequiredView /\
  user_messages (events_of (onOpen w) s) = [token_expired].
Proof.
  intros Hc Ht Hf Hs Hd final. subst final.
  pose proof (onOpen_connected w s u t Hc Ht) as E.
  change (events_of (onOpen w) s)
    with (skipn (List.length (trace (snd (setUser (Some u) s))))
            (trace (snd (onOpen w s)))).
  rewrite E.
  change (skipn (List.length (trace (snd (setUser (Some u) s))))
            (trace (snd (fetchRecentRepos w t (snd (setUser (Some u) s))))))
    with (events_of (fetchRecentRepos w t) (snd (setUser (Some u) s))).
  enter_fetch Ht. simpl in Hf. rewrite Hf. simpl.
  unfold ok. rewrite Hs. simpl. unfold getLocalStorage, bind. simpl.
  rewrite Hc. simpl.
  repeat rewrite <- app_assoc. rewrite skipn_length_app.
  unfold view. simpl. rewrite Hd. repeat split.
Qed.

Lemma onOpen_expired_token_signs_out_witness :
  let w := world0 (Resolves (response0 401)) (Resolves tt) true
             (Resolves demo_url) in
  let s := state0 (Some (connected octocat (lit "ghp_0123456789abcdef")))
             (lit "demo") [] in
  view (hooks (snd (onOpen w s))) = ConnectionRequiredView.
Proof.
  intros w s.
  exact (proj1 (proj2 (proj2 (proj2
           (onOpen_expired_token_signs_out w s octocat
              (lit "ghp_0123456789abcdef") (response0 401)
              eq_refl eq_refl eq_refl eq_refl eq_refl))))).
Defined.
